(** * src/eda.py: exploratory analysis of the transaction table

    A shallow embedding of [load_parquet], [to_utc] and [main].

    - A pandas float64 column is a list of binary64 values; the missing
      value of such a column is NaN.
    - An object column holds [option] values, [None] being the missing value.
    - A [raise] is the [Raise] constructor of [result]; [try/except Exception]
      is a match on it.
    - The files, the two parquet readers and today's date are the fields of
      [World]; [main] is a function of the world. *)

From Stdlib Require Import ZArith List String Ascii Bool Floats Lia Sorted.
Import ListNotations.

Local Open Scope string_scope.
Local Open Scope list_scope.

(** ** Python exceptions *)

(** An exception: its class and [str(e)]. The wording of a message that
    pandas composes is not modelled: the string names what the message is
    about (the missing label, the value that does not convert). *)
Record exn : Type := mkExn { exn_class : string; exn_str : string }.

Inductive result (A : Type) : Type :=
| Ok (a : A)
| Raise (e : exn).
Arguments Ok {A} a.
Arguments Raise {A} e.

Definition bind {A B : Type} (m : result A) (k : A -> result B) : result B :=
  match m with
  | Ok a => k a
  | Raise e => Raise e
  end.

Notation "x <- m ;; k" := (bind m (fun x => k))
  (at level 61, m at next level, right associativity).

Definition RuntimeError (msg : string) : exn := mkExn "RuntimeError" msg.
Definition KeyError (msg : string) : exn := mkExn "KeyError" msg.
Definition ValueError (msg : string) : exn := mkExn "ValueError" msg.
Definition TypeError (msg : string) : exn := mkExn "TypeError" msg.

(** ** Paths *)

(** A [pathlib.Path]: [str(path)], which an f-string interpolates, and
    [path.as_posix()]. *)
Record Path : Type := mkPath { path_str : string; as_posix : string }.

(** [base / name]. *)
Definition joinpath (base : Path) (name : string) : Path :=
  mkPath (path_str base ++ "/" ++ name) (as_posix base ++ "/" ++ name).

(** ** load_parquet *)

(** The two readers [load_parquet] calls, for tables of type [T]:
    [pd.read_parquet(path, columns=columns)], and the duckdb fallback.
    Importing duckdb and connecting may raise; so may the query. *)
Record Readers (T : Type) : Type := mkReaders {
  read_parquet : Path -> option (list string) -> result T;
  duckdb_connect : result unit;
  duckdb_fetchdf : string -> result T
}.
Arguments mkReaders {T} _ _ _.
Arguments read_parquet {T} _ _ _.
Arguments duckdb_connect {T} _.
Arguments duckdb_fetchdf {T} _ _.

(** [cols] of lines 23-26: an empty list is falsy, as [None] is. *)
Definition select_list (columns : option (list string)) : string :=
  match columns with
  | Some (c :: cs) => String.concat ", " (c :: cs)
  | _ => "*"
  end.

Definition select_query (path : Path) (columns : option (list string)) : string :=
  "SELECT " ++ select_list columns ++ " FROM read_parquet('" ++ as_posix path ++ "')".

Definition cannot_read (path : Path) (e : exn) : string :=
  "Cannot read " ++ path_str path ++ ": " ++ exn_str e.

(** Lines 21-27: the fallback. *)
Definition duckdb_fallback {T : Type} (io : Readers T) (path : Path)
  (columns : option (list string)) : result T :=
  _ <- duckdb_connect io ;;
  duckdb_fetchdf io (select_query path columns).

Definition load_parquet {T : Type} (io : Readers T) (path : Path)
  (columns : option (list string)) : result T :=
  match read_parquet io path columns with
  | Ok df => Ok df
  | Raise _ =>
      match duckdb_fallback io path columns with
      | Ok df => Ok df
      | Raise e => Raise (RuntimeError (cannot_read path e))
      end
  end.

(** ** Cells and rows of the transaction table *)

(** A timestamp cell, by what [pd.to_datetime] makes of it: the null value,
    an instant (nanoseconds since the epoch, UTC), or a non-null value
    that does not convert. *)
Inductive ts_cell : Type :=
| NaT
| Instant (ns : Z)
| Unparsed (raw : string).

(** A value stored under a key of the [last_hour_activity] struct. *)
Inductive pyval : Type :=
| PNone
| PNum (x : float)
| PObj (repr : string).

(** A [last_hour_activity] cell: a dict, or anything else. *)
Inductive activity : Type :=
| NotADict
| Dict (items : list (string * pyval)).

(** One row. The last four columns are the ones [main] adds. The columns
    [main] only plots by (vendor, device, card type, ...) carry no
    behaviour described below and are left out. *)
Record Row : Type := mkRow {
  customer_id : option string;
  timestamp : ts_cell;
  amount : float;
  currency : option string;
  country : option string;
  is_fraud : option bool;
  last_hour_activity : activity;
  date : option Z;
  per_usd : float;
  amount_usd : float;
  hour : option Z
}.

Record DataFrame : Type := mkFrame { columns : list string; rows : list Row }.

Definition has_column (name : string) (cols : list string) : bool :=
  existsb (String.eqb name) cols.

Definition add_column (name : string) (cols : list string) : list string :=
  if has_column name cols then cols else cols ++ [name].

Definition set_timestamp (v : ts_cell) (r : Row) : Row :=
  mkRow (customer_id r) v (amount r) (currency r) (country r) (is_fraud r)
    (last_hour_activity r) (date r) (per_usd r) (amount_usd r) (hour r).
Definition set_date (v : option Z) (r : Row) : Row :=
  mkRow (customer_id r) (timestamp r) (amount r) (currency r) (country r) (is_fraud r)
    (last_hour_activity r) v (per_usd r) (amount_usd r) (hour r).
Definition set_per_usd (v : float) (r : Row) : Row :=
  mkRow (customer_id r) (timestamp r) (amount r) (currency r) (country r) (is_fraud r)
    (last_hour_activity r) (date r) v (amount_usd r) (hour r).
Definition set_amount_usd (v : float) (r : Row) : Row :=
  mkRow (customer_id r) (timestamp r) (amount r) (currency r) (country r) (is_fraud r)
    (last_hour_activity r) (date r) (per_usd r) v (hour r).
Definition set_hour (v : option Z) (r : Row) : Row :=
  mkRow (customer_id r) (timestamp r) (amount r) (currency r) (country r) (is_fraud r)
    (last_hour_activity r) (date r) (per_usd r) (amount_usd r) v.

(** [df[name] = values]: the values are aligned with the rows. *)
Definition assign {A : Type} (set : A -> Row -> Row) (name : string)
  (values : list A) (df : DataFrame) : DataFrame :=
  mkFrame (add_column name (columns df))
          (map (fun vr => set (fst vr) (snd vr)) (combine values (rows df))).

(** ** Missing values *)

Definition ts_isna (t : ts_cell) : bool :=
  match t with NaT => true | _ => false end.

Definition opt_isna {A : Type} (o : option A) : bool :=
  match o with None => true | Some _ => false end.

(** [isna] of the cell of a row under a column that [dropna] is asked about. *)
Definition cell_isna (name : string) (r : Row) : bool :=
  if name =? "timestamp" then ts_isna (timestamp r)
  else if name =? "amount" then is_nan (amount r)
  else if name =? "currency" then opt_isna (currency r)
  else false.

(** [df.dropna(subset=subset)]: a label of [subset] that is no column
    raises [KeyError]. *)
Definition dropna (subset : list string) (df : DataFrame) : result DataFrame :=
  match filter (fun c => negb (has_column c (columns df))) subset with
  | [] => Ok (mkFrame (columns df)
                (filter (fun r => negb (existsb (fun c => cell_isna c r) subset)) (rows df)))
  | missing => Raise (KeyError (String.concat ", " missing))
  end.

(** ** to_utc and the date key *)

(** [pd.to_datetime(ts, utc=True, errors="coerce")]: what does not convert
    becomes [NaT]. *)
Definition to_utc (ts : list ts_cell) : list ts_cell :=
  map (fun t => match t with Instant ns => Instant ns | _ => NaT end) ts.

Definition ns_per_hour : Z := 3600000000000.
Definition ns_per_day : Z := (24 * ns_per_hour)%Z.

(** [.dt.date] of a cell, as days since the epoch. *)
Definition dt_date (t : ts_cell) : option Z :=
  match t with Instant ns => Some (ns / ns_per_day)%Z | _ => None end.

(** [.dt.hour] of a cell. *)
Definition dt_hour (t : ts_cell) : option Z :=
  match t with Instant ns => Some ((ns / ns_per_hour) mod 24)%Z | _ => None end.

(** Lines 56-61 of [main]. *)
Definition clean (tx : DataFrame) : result DataFrame :=
  tx <- dropna ["timestamp"; "amount"; "currency"] tx ;;
  let tx := assign set_timestamp "timestamp" (to_utc (map timestamp (rows tx))) tx in
  tx <- dropna ["timestamp"] tx ;;
  Ok (assign set_date "date" (map dt_date (map timestamp (rows tx))) tx).

(** ** The exchange-rate table *)

(** A row of the wide table: its cell under [date], and its cells under the
    other columns, in column order. *)
Record FxRow : Type := mkFxRow { fx_date : ts_cell; fx_values : list float }.

Record FxFrame : Type := mkFx { fx_columns : list string; fx_rows : list FxRow }.

(** A row of the long table, with dates of type [D]. *)
Record Long (D : Type) : Type := mkLong {
  long_date : D;
  long_currency : string;
  long_per_usd : float
}.
Arguments mkLong {D} _ _ _.
Arguments long_date {D} _.
Arguments long_currency {D} _.
Arguments long_per_usd {D} _.

Definition value_vars (fx : FxFrame) : list string :=
  filter (fun c => negb (c =? "date")) (fx_columns fx).

(** [fx.melt(id_vars=["date"], var_name="currency", value_name="per_usd")]:
    one block of rows per value column. *)
Definition melt (fx : FxFrame) : list (Long ts_cell) :=
  flat_map
    (fun ic => map (fun r => mkLong (fx_date r) (snd ic) (nth (fst ic) (fx_values r) nan))
                   (fx_rows fx))
    (combine (seq 0 (List.length (value_vars fx))) (value_vars fx)).

(** [pd.to_datetime(series)] with the default [errors="raise"]. *)
Fixpoint to_datetime (ts : list ts_cell) : result (list ts_cell) :=
  match ts with
  | [] => Ok []
  | Unparsed raw :: _ => Raise (ValueError raw)
  | t :: ts' => ts' <- to_datetime ts' ;; Ok (t :: ts')
  end.

(** [fx_long["date"] = dates]. *)
Definition with_dates {D E : Type} (dates : list E) (l : list (Long D)) : list (Long E) :=
  map (fun dl => mkLong (fst dl) (long_currency (snd dl)) (long_per_usd (snd dl)))
      (combine dates l).

Definition opt_eqb {A : Type} (eqb : A -> A -> bool) (x y : option A) : bool :=
  match x, y with
  | Some a, Some b => eqb a b
  | None, None => true
  | _, _ => false
  end.

(** The join key of [merge(on=["date","currency"])]. *)
Definition key_eqb (r : Row) (l : Long (option Z)) : bool :=
  opt_eqb Z.eqb (date r) (long_date l)
  && opt_eqb String.eqb (currency r) (Some (long_currency l)).

(** [tx.merge(fx_long, on=["date","currency"], how="left")]: every left row
    once per matching right row, and once with a missing rate if there is
    none. *)
Definition merge_left (tx : DataFrame) (fx_long : list (Long (option Z))) : DataFrame :=
  mkFrame (add_column "per_usd" (columns tx))
    (flat_map
       (fun r => match filter (key_eqb r) fx_long with
                 | [] => [set_per_usd nan r]
                 | ms => map (fun l => set_per_usd (long_per_usd l) r) ms
                 end)
       (rows tx)).

(** [series.eq(s)]. *)
Definition series_eq (xs : list (option string)) (s : string) : list bool :=
  map (fun x => opt_eqb String.eqb x (Some s)) xs.

(** [a / b] on two aligned float columns. *)
Fixpoint series_div (xs ys : list float) : list float :=
  match xs, ys with
  | x :: xs', y :: ys' => (x / y)%float :: series_div xs' ys'
  | _, _ => []
  end.

Fixpoint np_where {A : Type} (cond : list bool) (xs ys : list A) : list A :=
  match cond, xs, ys with
  | c :: cond', x :: xs', y :: ys' => (if c then x else y) :: np_where cond' xs' ys'
  | _, _, _ => []
  end.

(** ** The world [main] runs in *)

Record World : Type := mkWorld {
  root : Path;
  tx_io : Readers DataFrame;
  fx_exists : bool;
  fx_io : Readers FxFrame;
  today : string
}.

Definition DATA_DIR (w : World) : Path := joinpath (root w) "data".
Definition REP_DIR (w : World) : Path := joinpath (root w) "reports".
Definition TX (w : World) : Path := joinpath (DATA_DIR w) "transaction_fraud_data.parquet".
Definition FX (w : World) : Path := joinpath (DATA_DIR w) "historical_currency_exchange.parquet".

Definition tx_cols : list string :=
  ["transaction_id"; "customer_id"; "timestamp"; "amount"; "currency";
   "country"; "city"; "vendor"; "vendor_type";
   "device"; "card_type";
   "is_high_risk_vendor"; "is_fraud";
   "last_hour_activity"].

Definition amount_usd_col : string := "amount_usd".

(** Lines 72-74. *)
Definition usd_amounts (tx : DataFrame) : list float :=
  np_where (series_eq (map currency (rows tx)) "USD")
           (map amount (rows tx))
           (series_div (map amount (rows tx)) (map per_usd (rows tx))).

(** Lines 66-78 of [main]. *)
Definition convert (w : World) (tx : DataFrame) : result DataFrame :=
  if fx_exists w then
    fx <- load_parquet (fx_io w) (FX w) None ;;
    if has_column "date" (fx_columns fx) then
      let fx_long := melt fx in
      dates <- to_datetime (map long_date fx_long) ;;
      let fx_long := with_dates (map dt_date dates) fx_long in
      let tx := merge_left tx fx_long in
      Ok (assign set_amount_usd amount_usd_col (usd_amounts tx) tx)
    else
      Ok (assign set_amount_usd amount_usd_col (map amount (rows tx)) tx)
  else
    Ok (assign set_amount_usd amount_usd_col (map amount (rows tx)) tx).

(** ** Series and groupby *)

Definition present {A : Type} (l : list (option A)) : list A :=
  flat_map (fun o => match o with Some a => [a] | None => [] end) l.

(** The distinct values of a list, in order of first appearance. *)
Fixpoint uniques {A : Type} (eqb : A -> A -> bool) (l : list A) : list A :=
  match l with
  | [] => []
  | x :: t => x :: filter (fun y => negb (eqb x y)) (uniques eqb t)
  end.

Fixpoint insert_by {A : Type} (leb : A -> A -> bool) (x : A) (l : list A) : list A :=
  match l with
  | [] => [x]
  | y :: t => if leb x y then x :: l else y :: insert_by leb x t
  end.

Definition sort_by {A : Type} (leb : A -> A -> bool) (l : list A) : list A :=
  fold_right (insert_by leb) [] l.

(** [groupby(keys)[vals]]: one group per distinct non-null key, in ascending
    key order, holding the values of the rows under that key in row order. *)
Definition groupby {K V : Type} (eqb leb : K -> K -> bool)
  (keys : list (option K)) (vals : list V) : list (K * list V) :=
  map (fun k => (k, map snd (filter (fun kv => opt_eqb eqb (fst kv) (Some k))
                                    (combine keys vals))))
      (sort_by leb (uniques eqb (present keys))).

Definition of_nat (n : nat) : float := PrimFloat.of_uint63 (Uint63.of_Z (Z.of_nat n)).

(** [series.sum()] of a boolean column: the number of [True]. *)
Definition sum_bool (l : list (option bool)) : nat :=
  List.length (filter (fun o => opt_eqb Bool.eqb o (Some true)) l).

(** [series.mean()] of a boolean column: missing values are skipped; the mean
    of nothing is NaN. *)
Definition mean_bool (l : list (option bool)) : float :=
  (of_nat (sum_bool l) / of_nat (List.length (present l)))%float.

(** ** Median and quantile *)

Definition sort_floats (xs : list float) : list float := sort_by PrimFloat.leb xs.

(** [series.median()]: missing values are skipped; on the sorted values, the
    middle one, or the mean of the two middle ones. *)
Definition median (xs : list float) : float :=
  let s := sort_floats (filter (fun x => negb (is_nan x)) xs) in
  let n := List.length s in
  if Nat.eqb n 0 then nan
  else if Nat.odd n then nth (n / 2) s nan
  else ((nth (n / 2 - 1) s nan + nth (n / 2) s nan) / 2)%float.

(** The largest integer not above a non-negative finite float. *)
Definition float_floor (f : float) : nat :=
  match Prim2SF f with
  | S754_finite false m e =>
      Z.to_nat (if (0 <=? e)%Z then Z.shiftl (Zpos m) e else Z.shiftr (Zpos m) (- e))
  | _ => 0
  end.

(** [series.quantile(q, interpolation="linear")]: missing values are skipped;
    on the sorted values, with [i] and [j] the neighbours of position
    [(n - 1) * q], the result is [i + (j - i) * fraction]; NaN if there is
    no value. *)
Definition quantile (q : float) (xs : list float) : float :=
  match sort_floats (filter (fun x => negb (is_nan x)) xs) with
  | [] => nan
  | s =>
      let n := List.length s in
      let virtual_index := (of_nat (n - 1) * q)%float in
      let lo := float_floor virtual_index in
      let hi := Nat.min (lo + 1) (n - 1) in
      let fraction := (virtual_index - of_nat lo)%float in
      (nth lo s nan + (nth hi s nan - nth lo s nan) * fraction)%float
  end.

(** The binary64 value of the literal [0.95]. *)
Definition q95 : float := 0x1.e666666666666p-1%float.

(** ** The customer metric (lines 135-141) *)

Definition dict_get (key : string) (items : list (string * pyval)) : pyval :=
  match find (fun kv => fst kv =? key) items with
  | Some kv => snd kv
  | None => PNone
  end.

(** [lambda x: x.get("unique_merchants") if isinstance(x, dict) else None]. *)
Definition unique_merchants (x : activity) : pyval :=
  match x with
  | Dict items => dict_get "unique_merchants" items
  | NotADict => PNone
  end.

Definition pyval_isna (v : pyval) : bool :=
  match v with
  | PNone => true
  | PNum x => is_nan x
  | PObj _ => false
  end.

(** The values of a group as floats, [None] skipped; a value that is no
    number makes the median raise. *)
Fixpoint numeric (vs : list pyval) : result (list float) :=
  match vs with
  | [] => Ok []
  | PNum x :: vs' => xs <- numeric vs' ;; Ok (x :: xs)
  | PNone :: vs' => numeric vs'
  | PObj repr :: _ => Raise (TypeError repr)
  end.

Fixpoint group_medians (groups : list (string * list pyval)) : result (list (string * float)) :=
  match groups with
  | [] => Ok []
  | (k, vs) :: groups' =>
      xs <- numeric vs ;;
      rest <- group_medians groups' ;;
      Ok ((k, median xs) :: rest)
  end.

(** [tmp], after [dropna(subset=["uniq_last_hour"])]. *)
Definition tmp_rows (tx : DataFrame) : list (option string * pyval) :=
  filter (fun cu => negb (pyval_isna (snd cu)))
         (combine (map customer_id (rows tx))
                  (map unique_merchants (map last_hour_activity (rows tx)))).

(** [med]: the median per customer. *)
Definition customer_medians (tx : DataFrame) : result (list (string * float)) :=
  if has_column "customer_id" (columns tx) then
    let tmp := tmp_rows tx in
    group_medians (groupby String.eqb String.leb (map fst tmp) (map snd tmp))
  else Raise (KeyError "customer_id").

(** [int((med > thr).sum())]. *)
Definition count_above (thr : float) (med : list float) : nat :=
  List.length (filter (fun m => (thr <? m)%float) med).

(** The body of the [try] of lines 134-141: [count_strict], or what is raised. *)
Definition count_strict (tx : DataFrame) : result nat :=
  med <- customer_medians tx ;;
  let thr := quantile q95 (map snd med) in
  Ok (count_above thr (map snd med)).

(** ** value_counts *)

(** [series.value_counts()]: the distinct non-null values with their number
    of occurrences, most frequent first (values of equal count in order of
    first appearance). *)
Definition value_counts (xs : list (option string)) : list (string * nat) :=
  sort_by (fun a b => Nat.leb (snd b) (snd a))
    (map (fun k => (k, List.length (filter (String.eqb k) (present xs))))
         (uniques String.eqb (present xs))).

(** ** The report *)

(** A line of the report: the f-string it comes from, with the values
    interpolated into it. *)
Inductive line : Type :=
| Header (today : string)
| Blank
| TotalTransactions (total : nat)
| FraudulentTransactions (fraud : option nat)
| FraudRate (fraud_rate : float)
| AmountNormalizedColumn (col : string)
| Top5Heading
| CountryCount (c : string) (v : nat)
| StructHeading
| CustomersStrictlyAbove (count_strict : nat)
| ParseFailureHeading
| CouldNotParse (e : string).

(** What a run leaves behind: the table at the end of [main], the lines of
    [eda_summary.md], the values drawn in [amount_usd_hist.png], the series
    drawn in [fraud_rate_by_hour.png] (if it is drawn), and the path printed.
    The bar charts by country, by risk flag and by vendor type are drawn from
    the same table and are not kept here. *)
Record Output : Type := mkOutput {
  table : DataFrame;
  report : list line;
  amount_usd_hist : list float;
  fraud_rate_by_hour : option (list (Z * float));
  wrote : Path
}.

(** Lines 82-84. *)
Definition total (tx : DataFrame) : nat := List.length (rows tx).

Definition fraud (tx : DataFrame) : option nat :=
  if has_column "is_fraud" (columns tx)
  then Some (sum_bool (map is_fraud (rows tx))) else None.

Definition fraud_rate (tx : DataFrame) : option float :=
  if has_column "is_fraud" (columns tx)
  then Some (mean_bool (map is_fraud (rows tx)) * 100)%float else None.

(** Line 93: [tx[amount_usd_col].dropna()]. *)
Definition hist_values (tx : DataFrame) : list float :=
  filter (fun x => negb (is_nan x)) (map amount_usd (rows tx)).

(** Line 98. *)
Definition with_hour (tx : DataFrame) : DataFrame :=
  assign set_hour "hour" (map dt_hour (map timestamp (rows tx))) tx.

(** Line 99: [tx.groupby("hour")["is_fraud"].mean()]. *)
Definition by_hour (tx : DataFrame) : list (Z * float) :=
  map (fun g => (fst g, mean_bool (snd g)))
      (groupby Z.eqb Z.leb (map hour (rows tx)) (map is_fraud (rows tx))).

(** Lines 118-120. *)
Definition kpi_lines (fraud : option nat) (fraud_rate : option float) : list line :=
  match fraud_rate with
  | Some rate => [FraudulentTransactions fraud; FraudRate rate]
  | None => []
  end.

(** Lines 121-122. *)
Definition amount_lines (tx : DataFrame) : list line :=
  if has_column amount_usd_col (columns tx)
  then [AmountNormalizedColumn amount_usd_col] else [].

(** Lines 125-130. *)
Definition top5_lines (tx : DataFrame) : list line :=
  if has_column "is_fraud" (columns tx) && has_column "country" (columns tx) then
    let top5 := firstn 5 (value_counts
                  (map country (filter (fun r => opt_eqb Bool.eqb (is_fraud r) (Some true))
                                       (rows tx)))) in
    [Blank; Top5Heading] ++ map (fun cv => CountryCount (fst cv) (snd cv)) top5
  else [].

(** Lines 133-148. *)
Definition activity_lines (tx : DataFrame) : list line :=
  if has_column "last_hour_activity" (columns tx) then
    match count_strict tx with
    | Ok n => [Blank; StructHeading; CustomersStrictlyAbove n]
    | Raise e => [Blank; ParseFailureHeading; CouldNotParse (exn_str e)]
    end
  else [].

(** Lines 114-148. *)
Definition lines (w : World) (tx : DataFrame) (total : nat) (fraud : option nat)
  (fraud_rate : option float) : list line :=
  [Header (today w); Blank; TotalTransactions total]
  ++ kpi_lines fraud fraud_rate ++ amount_lines tx ++ top5_lines tx ++ activity_lines tx.

(** Lines 56-78: the table every aggregate is computed from. *)
Definition prepare (w : World) (tx : DataFrame) : result DataFrame :=
  tx <- clean tx ;;
  convert w tx.

(** [main]. Drawing the charts and writing the files are taken to succeed. *)
Definition main (w : World) : result Output :=
  tx <- load_parquet (tx_io w) (TX w) (Some (filter (fun c => true) tx_cols)) ;;
  tx <- prepare w tx ;;
  let n := total tx in
  let k := fraud tx in
  let rate := fraud_rate tx in
  let hist := hist_values tx in
  let has_fraud := has_column "is_fraud" (columns tx) in
  let tx := if has_fraud then with_hour tx else tx in
  let hourly := if has_fraud then Some (by_hour tx) else None in
  Ok (mkOutput tx (lines w tx n k rate) hist hourly (joinpath (REP_DIR w) "eda_summary.md")).

(** ** Vocabulary of the statements *)

(** The reference currency. *)
Definition is_usd (r : Row) : bool := opt_eqb String.eqb (currency r) (Some "USD").

(** Line 72-74 on one row. *)
Definition usd_amount (r : Row) : float :=
  if is_usd r then amount r else (amount r / per_usd r)%float.

(** A row that lines 56-59 keep: its timestamp converts to an instant, and
    its amount and currency are not missing. *)
Definition kept (r : Row) : bool :=
  match timestamp r with
  | Instant _ => negb (is_nan (amount r)) && negb (opt_isna (currency r))
  | _ => false
  end.

(** [r] carries the loaded columns of [r0]. *)
Definition same_transaction (r0 r : Row) : Prop :=
  customer_id r = customer_id r0 /\ timestamp r = timestamp r0 /\
  amount r = amount r0 /\ currency r = currency r0 /\ country r = country r0 /\
  is_fraud r = is_fraud r0 /\ last_hour_activity r = last_hour_activity r0.

(** The rates the long table holds for the date and currency of a row. *)
Definition matching_rates (fx_long : list (Long (option Z))) (r : Row) : list float :=
  map long_per_usd (filter (key_eqb r) fx_long).

(** The long table that [convert] joins with, when the date column converts. *)
Definition long_table (fx : FxFrame) : list (Long (option Z)) :=
  with_dates (map dt_date (map long_date (melt fx))) (melt fx).

(** The wide table holds the rate [R] for currency [c] on day [d]: some row
    of that day has [R] under the column named [c]. *)
Definition rate_at (fx : FxFrame) (d : option Z) (c : string) (R : float) : Prop :=
  exists (i : nat) (row : FxRow),
    nth_error (value_vars fx) i = Some c /\ In row (fx_rows fx) /\
    dt_date (fx_date row) = d /\ nth i (fx_values row) nan = R.

(** The date key of a loaded row. *)
Definition date_key (r : Row) : option Z := dt_date (timestamp r).


(** The present [unique_merchants] values of the rows of customer [c], in
    row order. *)
Definition customer_values (tx : DataFrame) (c : string) : list pyval :=
  filter (fun v => negb (pyval_isna v))
    (map (fun r => unique_merchants (last_hour_activity r))
         (filter (fun r => opt_eqb String.eqb (customer_id r) (Some c)) (rows tx))).


(** The two lines of the failure note. *)
Definition is_failure_line (l : line) : bool :=
  match l with
  | ParseFailureHeading | CouldNotParse _ => true
  | _ => false
  end.

(** ** Sample tables *)

Definition at_hour (d h : Z) : ts_cell := Instant (d * ns_per_day + h * ns_per_hour + 5)%Z.
Definition noon (d : Z) : ts_cell := at_hour d 12.

Definition merchants (n : float) : activity := Dict [("unique_merchants", PNum n)].

Definition sample_row (cust : string) (ts : ts_cell) (amt : float) (cur : option string)
  (fraudulent : bool) (act : activity) : Row :=
  mkRow (Some cust) ts amt cur (Some "NL") (Some fraudulent) act None nan nan None.

(** The binary64 value of the literal [0.9]. *)
Definition rate_09 : float := 0x1.ccccccccccccdp-1%float.

Definition sample_tx : DataFrame :=
  mkFrame tx_cols
    [ sample_row "c1" (noon 19000) 100 (Some "USD") false (merchants 2);
      sample_row "c2" (at_hour 19000 3) 50 (Some "EUR") true (merchants 4);
      sample_row "c3" (noon 19000) 70 (Some "GBP") false NotADict;
      sample_row "c4" NaT 10 (Some "USD") false (merchants 1);
      sample_row "c5" (Unparsed "yesterday") 10 (Some "USD") true (merchants 1);
      sample_row "c6" (noon 19000) nan (Some "USD") false (merchants 1);
      sample_row "c7" (noon 19000) 5 None true (merchants 1) ].

Definition sample_fx : FxFrame :=
  mkFx ["date"; "EUR"; "USD"] [mkFxRow (Instant (19000 * ns_per_day)%Z) [rate_09; 1%float]].

Definition sample_fx_undated : FxFrame :=
  mkFx ["day"; "EUR"; "USD"] [mkFxRow NaT [rate_09; 1%float]].

Definition reader_of {T : Type} (t : T) : Readers T :=
  mkReaders (fun _ _ => Ok t) (Ok tt) (fun _ => Ok t).

Definition sample_root : Path := mkPath "/srv/eda" "/srv/eda".

Definition sample_world : World :=
  mkWorld sample_root (reader_of sample_tx) true (reader_of sample_fx) "2025-01-01".

Definition sample_world_no_rates : World :=
  mkWorld sample_root (reader_of sample_tx) false (reader_of sample_fx) "2025-01-01".

Definition sample_world_undated : World :=
  mkWorld sample_root (reader_of sample_tx) true (reader_of sample_fx_undated) "2025-01-01".

Definition or_else {A : Type} (m : result A) (d : A) : A :=
  match m with Ok a => a | Raise _ => d end.

(** The sample table as [main] cleans and prepares it in the sample world. *)
Definition sample_prepared : DataFrame :=
  or_else (prepare sample_world sample_tx) sample_tx.

Definition sample_cleaned : DataFrame := or_else (clean sample_tx) sample_tx.

Definition no_output : Output := mkOutput sample_tx [] [] None sample_root.

(** What a run leaves behind in the sample world. *)
Definition sample_output : Output := or_else (main sample_world) no_output.

(** The sample table without its [is_fraud] column. *)
Definition sample_tx_unflagged : DataFrame :=
  mkFrame (filter (fun c => negb (c =? "is_fraud")) tx_cols) (rows sample_tx).

Definition sample_world_unflagged : World :=
  mkWorld sample_root (reader_of sample_tx_unflagged) true (reader_of sample_fx) "2025-01-01".

Definition sample_output_unflagged : Output :=
  or_else (main sample_world_unflagged) no_output.

(** The sample table with no activity struct in any row. *)
Definition sample_tx_inactive : DataFrame :=
  mkFrame tx_cols
    (map (fun r => mkRow (customer_id r) (timestamp r) (amount r) (currency r) (country r)
                         (is_fraud r) NotADict (date r) (per_usd r) (amount_usd r) (hour r))
         (rows sample_tx)).

Definition sample_world_inactive : World :=
  mkWorld sample_root (reader_of sample_tx_inactive) true (reader_of sample_fx) "2025-01-01".

Definition sample_output_inactive : Output :=
  or_else (main sample_world_inactive) no_output.


(** ** The charts (lines 38-43 and 86-111) *)

Definition FIG_DIR (w : World) : Path := joinpath (root w) "figures".

(** [save_fig(name)]: the file the current chart is saved to, which is what
    the function returns. *)
Definition save_fig (w : World) (name : string) : Path := joinpath (FIG_DIR w) name.

(** The charts [main] saves for a table, in order: each [save_fig] call of
    lines 87-111 under its guard on the columns. *)
Definition saved_figures (w : World) (tx : DataFrame) : list Path :=
  (if has_column "is_fraud" (columns tx) && has_column "country" (columns tx)
   then [save_fig w "fraud_rate_by_country.png"] else [])
  ++ [save_fig w "amount_usd_hist.png"]
  ++ (if has_column "is_fraud" (columns tx)
      then [save_fig w "fraud_rate_by_hour.png"] else [])
  ++ (if has_column "is_high_risk_vendor" (columns tx) && has_column "is_fraud" (columns tx)
      then [save_fig w "fraud_rate_high_risk_flag.png"] else [])
  ++ (if has_column "vendor_type" (columns tx) && has_column "is_fraud" (columns tx)
      then [save_fig w "fraud_rate_by_vendor_type_top12.png"] else []).

(** ** More vocabulary *)

(** The rows of a table that are fraudulent and of country [c]. *)
Definition fraud_rows_of (tx : DataFrame) (c : string) : list Row :=
  filter (fun r => opt_eqb Bool.eqb (is_fraud r) (Some true)
                   && opt_eqb String.eqb (country r) (Some c)) (rows tx).

(** The [(country, count)] pairs behind the lines of the top-5 section. *)
Definition top5 (tx : DataFrame) : list (string * nat) :=
  firstn 5 (value_counts
              (map country (filter (fun r => opt_eqb Bool.eqb (is_fraud r) (Some true))
                                   (rows tx)))).

(** The number of rows the left join makes of a row: one per matching rate,
    and one if there is none. *)
Definition copies (fx_long : list (Long (option Z))) (r : Row) : nat :=
  Nat.max 1 (List.length (matching_rates fx_long r)).



(** Readers that fail, with the given causes. *)
Definition failing_readers {T : Type} (primary fallback : string) : Readers T :=
  mkReaders (fun _ _ => Raise (mkExn "ArrowInvalid" primary)) (Ok tt)
            (fun _ => Raise (mkExn "IOException" fallback)).

(** A world whose rate file is there but cannot be read. *)
Definition sample_world_broken_rates : World :=
  mkWorld sample_root (reader_of sample_tx) true
          (failing_readers "bad magic" "not a parquet file") "2025-01-01".

(** A world whose transaction file cannot be read. *)
Definition sample_world_broken_tx : World :=
  mkWorld sample_root (failing_readers "bad magic" "not a parquet file") true
          (reader_of sample_fx) "2025-01-01".

(** A rate table with a date that does not convert. *)
Definition sample_fx_bad_date : FxFrame :=
  mkFx ["date"; "EUR"] [mkFxRow (Instant (19000 * ns_per_day)%Z) [rate_09];
                        mkFxRow (Unparsed "someday") [rate_09]].

Definition sample_world_bad_date : World :=
  mkWorld sample_root (reader_of sample_tx) true (reader_of sample_fx_bad_date) "2025-01-01".

(** The distinct days and rate columns that make the join one-to-one. *)
Definition fx_days (fx : FxFrame) : list (option Z) :=
  map (fun row => dt_date (fx_date row)) (fx_rows fx).

(** A rate table that holds the same day twice. *)
Definition sample_fx_twice : FxFrame :=
  mkFx ["date"; "EUR"]
       [mkFxRow (Instant (19000 * ns_per_day)%Z) [rate_09];
        mkFxRow (Instant (19000 * ns_per_day + 7)%Z) [2%float]].

Definition sample_world_twice : World :=
  mkWorld sample_root (reader_of sample_tx) true (reader_of sample_fx_twice) "2025-01-01".

Definition sample_prepared_twice : DataFrame :=
  or_else (prepare sample_world_twice sample_tx) sample_tx.

(** What a run leaves behind in the world without a rate file. *)
Definition sample_output_no_rates : Output := or_else (main sample_world_no_rates) no_output.

(** A table with a customer whose activity value is no number. *)
Definition sample_tx_garbled : DataFrame :=
  mkFrame tx_cols
    [ sample_row "c1" (noon 19000) 100 (Some "USD") false (merchants 2);
      sample_row "c2" (noon 19000) 50 (Some "USD") true
        (Dict [("unique_merchants", PObj "a few")]) ].

(** A table without rows. *)
Definition empty_tx : DataFrame := mkFrame tx_cols [].

Definition sample_world_empty : World :=
  mkWorld sample_root (reader_of empty_tx) true (reader_of sample_fx) "2025-01-01".

Definition sample_output_empty : Output := or_else (main sample_world_empty) no_output.

Definition sample_world_garbled : World :=
  mkWorld sample_root (reader_of sample_tx_garbled) false (reader_of sample_fx) "2025-01-01".

(** * Properties *)

(** ** The loader *)

Lemma load_parquet_primary {T : Type} (io : Readers T) path columns df :
  read_parquet io path columns = Ok df ->
  load_parquet io path columns = Ok df.
Proof. intros H. unfold load_parquet. now rewrite H. Qed.

Lemma load_parquet_secondary {T : Type} (io : Readers T) path columns e df :
  read_parquet io path columns = Raise e ->
  duckdb_fallback io path columns = Ok df ->
  load_parquet io path columns = Ok df.
Proof. intros H1 H2. unfold load_parquet. now rewrite H1, H2. Qed.

Lemma load_parquet_fatal {T : Type} (io : Readers T) path columns e1 e2 :
  read_parquet io path columns = Raise e1 ->
  duckdb_fallback io path columns = Raise e2 ->
  load_parquet io path columns = Raise (RuntimeError (cannot_read path e2)).
Proof. intros H1 H2. unfold load_parquet. now rewrite H1, H2. Qed.

Lemma select_query_names_file path columns :
  exists pre post, select_query path columns = (pre ++ as_posix path ++ post)%string.
Proof.
  exists ("SELECT " ++ select_list columns ++ " FROM read_parquet('")%string, "')".
  unfold select_query.
  generalize (select_list columns) as c; intros c.
  generalize (as_posix path) as p; intros p.
  cbn. do 7 f_equal.
  induction c as [|a c IH]; cbn; [reflexivity|]. now rewrite IH.
Qed.

(** C9. [load_parquet] returns the table of the primary reader if that
    succeeds; if it raises, the table of the duckdb query over the same file
    if that succeeds; if both raise, it raises a RuntimeError whose message is
    "Cannot read <path>: <cause>", the cause being what the fallback raised,
    so the message contains both the path and the cause. *)
Theorem load_parquet_strategies {T : Type} (io : Readers T) path columns :
  (exists pre post, select_query path columns = (pre ++ as_posix path ++ post)%string) /\
  duckdb_fallback io path columns
    = (_ <- duckdb_connect io ;; duckdb_fetchdf io (select_query path columns)) /\
  match read_parquet io path columns with
  | Ok df => load_parquet io path columns = Ok df
  | Raise _ =>
      match duckdb_fallback io path columns with
      | Ok df => load_parquet io path columns = Ok df
      | Raise cause =>
          exists msg,
            load_parquet io path columns = Raise (mkExn "RuntimeError" msg) /\
            msg = ("Cannot read " ++ path_str path ++ ": " ++ exn_str cause)%string /\
            (exists pre post, msg = (pre ++ path_str path ++ post)%string) /\
            (exists pre, msg = (pre ++ exn_str cause)%string)
      end
  end.
Proof.
  split; [apply select_query_names_file|]. split; [reflexivity|].
  destruct (read_parquet io path columns) as [df|e1] eqn:H1.
  - now apply load_parquet_primary.
  - destruct (duckdb_fallback io path columns) as [df|e2] eqn:H2.
    + now apply load_parquet_secondary with e1.
    + exists (cannot_read path e2). split; [now apply load_parquet_fatal with e1|].
      split; [reflexivity|]. split.
      * exists "Cannot read ", (": " ++ exn_str e2)%string. reflexivity.
      * exists ("Cannot read " ++ path_str path ++ ": ")%string. unfold cannot_read.
        generalize (path_str path) as p; intros p. cbn. do 12 f_equal.
        induction p as [|a p IH]; cbn; [reflexivity|]. now rewrite IH.
Qed.

(** ** Lists and columns *)

Lemma combine_map_self {A B : Type} (f : A -> B) (l : list A) :
  combine (map f l) l = map (fun x => (f x, x)) l.
Proof. induction l as [|x l IH]; cbn; [reflexivity|]. now rewrite IH. Qed.

Lemma rows_assign {A : Type} (set : A -> Row -> Row) name (f : Row -> A) df :
  rows (assign set name (map f (rows df)) df) = map (fun r => set (f r) r) (rows df).
Proof.
  unfold assign; cbn. rewrite combine_map_self, map_map. reflexivity.
Qed.

Lemma has_column_add name c cols :
  has_column name (add_column c cols) = has_column name cols || String.eqb name c.
Proof.
  unfold add_column. destruct (has_column c cols) eqn:Hc.
  - destruct (String.eqb_spec name c) as [->|_]; [|now rewrite orb_false_r].
    now rewrite Hc.
  - unfold has_column. rewrite existsb_app. cbn. now rewrite orb_false_r.
Qed.

Lemma columns_assign {A : Type} (set : A -> Row -> Row) name values df c :
  has_column c (columns (assign set name values df))
  = has_column c (columns df) || String.eqb c name.
Proof. unfold assign; cbn. apply has_column_add. Qed.

Lemma dropna_ok subset df df' :
  dropna subset df = Ok df' ->
  columns df' = columns df /\
  rows df' = filter (fun r => negb (existsb (fun c => cell_isna c r) subset)) (rows df).
Proof.
  unfold dropna.
  destruct (filter (fun c => negb (has_column c (columns df))) subset); [|discriminate].
  intros [= <-]. split; reflexivity.
Qed.

Lemma dropna_total subset df :
  forallb (fun c => has_column c (columns df)) subset = true ->
  exists df', dropna subset df = Ok df'.
Proof.
  intros H. unfold dropna.
  replace (filter (fun c => negb (has_column c (columns df))) subset) with (@nil string).
  - eexists; reflexivity.
  - symmetry. induction subset as [|c s IH]; [reflexivity|].
    cbn in *. apply andb_prop in H as [Hc Hs]. rewrite Hc. cbn. now apply IH.
Qed.

Lemma bind_ok {A B : Type} (m : result A) (k : A -> result B) b :
  bind m k = Ok b -> exists a, m = Ok a /\ k a = Ok b.
Proof. destruct m as [a|e]; cbn; [|discriminate]. intros H. now exists a. Qed.

(** ** Cleaning (lines 56-61) *)

Lemma set_timestamp_same r : set_timestamp (timestamp r) r = r.
Proof. now destruct r. Qed.

Lemma dropna_required_pred r :
  negb (existsb (fun c => cell_isna c r) ["timestamp"; "amount"; "currency"])
  = negb (ts_isna (timestamp r)) && negb (is_nan (amount r)) && negb (opt_isna (currency r)).
Proof.
  change (negb (ts_isna (timestamp r) || (is_nan (amount r) || (opt_isna (currency r) || false)))
          = negb (ts_isna (timestamp r)) && negb (is_nan (amount r))
            && negb (opt_isna (currency r))).
  destruct (ts_isna (timestamp r)), (is_nan (amount r)), (opt_isna (currency r)); reflexivity.
Qed.

Lemma dropna_timestamp_pred r :
  negb (existsb (fun c => cell_isna c r) ["timestamp"]) = negb (ts_isna (timestamp r)).
Proof.
  change (negb (ts_isna (timestamp r) || false) = negb (ts_isna (timestamp r))).
  now rewrite orb_false_r.
Qed.

Lemma clean_filter (l : list Row) :
  filter (fun r => negb (existsb (fun c => cell_isna c r) ["timestamp"]))
    (map (fun r => set_timestamp
                     (match timestamp r with Instant ns => Instant ns | _ => NaT end) r)
       (filter (fun r => negb (existsb (fun c => cell_isna c r)
                                 ["timestamp"; "amount"; "currency"])) l))
  = filter kept l.
Proof.
  rewrite (filter_ext _ _ dropna_timestamp_pred).
  rewrite (filter_ext _ _ dropna_required_pred l).
  induction l as [|r l IH]; [reflexivity|].
  cbn [filter]. unfold kept at 1.
  destruct (timestamp r) as [|ns|raw] eqn:Ht.
  - cbn [ts_isna negb andb]. exact IH.
  - cbn [ts_isna negb andb].
    destruct (negb (is_nan (amount r)) && negb (opt_isna (currency r))).
    + cbn [map filter]. rewrite Ht. cbn [set_timestamp timestamp ts_isna negb].
      rewrite IH. f_equal. rewrite <- Ht. apply set_timestamp_same.
    + exact IH.
  - cbn [ts_isna negb andb].
    destruct (negb (is_nan (amount r)) && negb (opt_isna (currency r))).
    + cbn [map filter]. rewrite Ht. cbn [set_timestamp timestamp ts_isna negb].
      exact IH.
    + exact IH.
Qed.

Lemma clean_ok tx tx' :
  clean tx = Ok tx' ->
  rows tx' = map (fun r => set_date (dt_date (timestamp r)) r) (filter kept (rows tx)) /\
  forall c, has_column c (columns tx')
            = has_column c (columns tx) || String.eqb c "timestamp" || String.eqb c "date".
Proof.
  unfold clean. intros H.
  apply bind_ok in H as (tx1 & H1 & H). apply bind_ok in H as (tx3 & H3 & H).
  injection H as <-.
  apply dropna_ok in H1 as [C1 R1]. apply dropna_ok in H3 as [C3 R3].
  unfold to_utc in *. rewrite map_map in *. rewrite rows_assign in R3.
  split.
  - rewrite rows_assign, R3, R1. now rewrite clean_filter.
  - intros c. rewrite columns_assign, C3, columns_assign, C1. reflexivity.
Qed.

Lemma clean_total tx :
  has_column "timestamp" (columns tx) = true ->
  has_column "amount" (columns tx) = true ->
  has_column "currency" (columns tx) = true ->
  exists tx', clean tx = Ok tx'.
Proof.
  intros Ht Ha Hc. unfold clean.
  destruct (dropna_total ["timestamp"; "amount"; "currency"] tx) as [tx1 H1].
  { cbn. now rewrite Ht, Ha, Hc. }
  rewrite H1. cbn [bind].
  apply dropna_ok in H1 as [C1 _].
  match goal with |- context [dropna ?s ?d] =>
    destruct (dropna_total s d) as [tx3 H3] end.
  { cbn [forallb]. rewrite columns_assign, C1, Ht. reflexivity. }
  rewrite H3. cbn [bind]. eexists; reflexivity.
Qed.

(** ** binary64 facts *)





Lemma ltb_nan_l (x : float) : (nan <? x)%float = false.
Proof. rewrite ltb_spec. change (Prim2SF nan) with S754_nan. reflexivity. Qed.

(** ** Conversion (lines 66-78) *)

Lemma np_where_rows (l : list Row) :
  np_where (series_eq (map currency l) "USD") (map amount l)
           (series_div (map amount l) (map per_usd l))
  = map usd_amount l.
Proof.
  unfold series_eq. induction l as [|r l IH]; [reflexivity|].
  cbn [map np_where series_div]. rewrite IH. reflexivity.
Qed.

Lemma usd_amounts_rows tx : usd_amounts tx = map usd_amount (rows tx).
Proof. apply np_where_rows. Qed.

Lemma convert_identity w tx :
  fx_exists w = false \/
  (exists fx, fx_exists w = true /\ load_parquet (fx_io w) (FX w) None = Ok fx /\
              has_column "date" (fx_columns fx) = false) ->
  convert w tx = Ok (assign set_amount_usd amount_usd_col (map amount (rows tx)) tx).
Proof.
  unfold convert. intros [H|(fx & H1 & H2 & H3)].
  - now rewrite H.
  - rewrite H1, H2. cbn [bind]. now rewrite H3.
Qed.

Lemma to_datetime_ok ts ts' : to_datetime ts = Ok ts' -> ts' = ts.
Proof.
  revert ts'. induction ts as [|t ts IH]; intros ts'; cbn.
  - now intros [= <-].
  - destruct t as [|ns|raw]; try discriminate;
      (destruct (to_datetime ts) as [l|e]; cbn; [|discriminate]);
      intros [= <-]; now rewrite (IH l eq_refl).
Qed.

Lemma to_datetime_total ts :
  (forall raw, ~ In (Unparsed raw) ts) -> to_datetime ts = Ok ts.
Proof.
  induction ts as [|t ts IH]; intros H; cbn; [reflexivity|].
  rewrite IH by (intros raw Hin; apply (H raw); now right).
  destruct t as [|ns|raw]; cbn; try reflexivity.
  exfalso. apply (H raw). now left.
Qed.

Lemma convert_joined w fx dates tx :
  fx_exists w = true ->
  load_parquet (fx_io w) (FX w) None = Ok fx ->
  has_column "date" (fx_columns fx) = true ->
  to_datetime (map long_date (melt fx)) = Ok dates ->
  convert w tx
  = Ok (assign set_amount_usd amount_usd_col
          (map usd_amount (rows (merge_left tx (long_table fx))))
          (merge_left tx (long_table fx))).
Proof.
  intros H1 H2 H3 H4. unfold convert. rewrite H1, H2. cbn [bind]. rewrite H3, H4.
  cbn [bind]. rewrite usd_amounts_rows. apply to_datetime_ok in H4 as ->. reflexivity.
Qed.

(** A successful conversion over a dated rate table has converted the dates. *)
Lemma convert_dates w fx tx out :
  fx_exists w = true ->
  load_parquet (fx_io w) (FX w) None = Ok fx ->
  has_column "date" (fx_columns fx) = true ->
  convert w tx = Ok out ->
  exists dates, to_datetime (map long_date (melt fx)) = Ok dates.
Proof.
  intros H1 H2 H3. unfold convert. rewrite H1, H2. cbn [bind]. rewrite H3.
  destruct (to_datetime (map long_date (melt fx))) as [dates|e]; [|discriminate].
  intros _. now exists dates.
Qed.

Lemma in_merge_left tx fxl r :
  In r (rows (merge_left tx fxl)) <->
  exists r1, In r1 (rows tx) /\
    ((matching_rates fxl r1 = [] /\ r = set_per_usd nan r1) \/
     (exists R, In R (matching_rates fxl r1) /\ r = set_per_usd R r1)).
Proof.
  unfold merge_left, matching_rates. cbn [rows]. rewrite in_flat_map.
  split; intros (r1 & Hin & H); exists r1; (split; [exact Hin|]).
  - destruct (filter (key_eqb r1) fxl) as [|m ms] eqn:Hf.
    + left. destruct H as [<-|[]]. split; reflexivity.
    + right. apply in_map_iff in H as (l & <- & Hl).
      exists (long_per_usd l). split; [|reflexivity]. now apply in_map.
  - destruct H as [[Hnil ->]|(R & HR & ->)].
    + destruct (filter (key_eqb r1) fxl); [now left|discriminate].
    + apply in_map_iff in HR as (l & <- & Hl).
      destruct (filter (key_eqb r1) fxl) as [|m ms] eqn:Hf; [destruct Hl|].
      apply in_map_iff. now exists l.
Qed.

(** The rows of a joined conversion, one by one. *)
Lemma in_convert_joined tx fxl r :
  In r (rows (assign set_amount_usd amount_usd_col
                (map usd_amount (rows (merge_left tx fxl))) (merge_left tx fxl))) <->
  exists r1 R, In r1 (rows tx) /\
    ((matching_rates fxl r1 = [] /\ R = nan) \/ In R (matching_rates fxl r1)) /\
    r = set_amount_usd (usd_amount (set_per_usd R r1)) (set_per_usd R r1).
Proof.
  rewrite rows_assign, in_map_iff. split.
  - intros (r2 & <- & H2). apply in_merge_left in H2 as (r1 & H1 & H).
    destruct H as [[Hn ->]|(R & HR & ->)].
    + exists r1, nan. repeat split; auto.
    + exists r1, R. repeat split; auto.
  - intros (r1 & R & H1 & H & ->). exists (set_per_usd R r1). split; [reflexivity|].
    apply in_merge_left. exists r1. split; [exact H1|].
    destruct H as [[Hn ->]|HR]; [left|right]; eauto.
Qed.

(** ** The prepared table *)

Lemma prepare_ok w tx0 out :
  prepare w tx0 = Ok out -> exists tx1, clean tx0 = Ok tx1 /\ convert w tx1 = Ok out.
Proof. unfold prepare. apply bind_ok. Qed.

Lemma same_transaction_refl r : same_transaction r r.
Proof. repeat split. Qed.

Lemma same_transaction_converted r0 d R v :
  same_transaction r0 (set_amount_usd v (set_per_usd R (set_date d r0))).
Proof. repeat split. Qed.

Lemma kept_same_transaction r0 r :
  same_transaction r0 r -> kept r = kept r0.
Proof. intros (_ & Ht & Ha & Hc & _). unfold kept. now rewrite Ht, Ha, Hc. Qed.

Lemma kept_iff r :
  kept r = true <->
  (exists ns, timestamp r = Instant ns) /\ is_nan (amount r) = false /\
  (exists c, currency r = Some c).
Proof.
  unfold kept. split.
  - intros H. destruct (timestamp r) as [|ns|raw]; try discriminate.
    apply andb_prop in H as [Ha Hc]. split; [eauto|]. split.
    + destruct (is_nan (amount r)); [discriminate|reflexivity].
    + destruct (currency r) as [c|]; [eauto|discriminate].
  - intros ((ns & Ht) & Ha & (c & Hc)). rewrite Ht, Ha, Hc. reflexivity.
Qed.

(** The rows of the prepared table when there is no usable rate table: the
    kept rows, in order, each with its raw amount as converted amount. *)
Lemma prepare_identity_rows w tx0 out :
  fx_exists w = false \/
  (exists fx, fx_exists w = true /\ load_parquet (fx_io w) (FX w) None = Ok fx /\
              has_column "date" (fx_columns fx) = false) ->
  prepare w tx0 = Ok out ->
  rows out = map (fun r => set_amount_usd (amount r) (set_date (date_key r) r))
                 (filter kept (rows tx0)).
Proof.
  intros Hfx H. apply prepare_ok in H as (tx1 & H1 & H2).
  rewrite (convert_identity w tx1 Hfx) in H2. injection H2 as <-.
  apply clean_ok in H1 as [R1 _].
  rewrite rows_assign, R1, map_map. reflexivity.
Qed.

(** The rows of the prepared table when the rates are joined in. *)
Lemma prepare_joined_rows w fx tx0 out :
  fx_exists w = true ->
  load_parquet (fx_io w) (FX w) None = Ok fx ->
  has_column "date" (fx_columns fx) = true ->
  prepare w tx0 = Ok out ->
  forall r, In r (rows out) <->
    exists r0 R, In r0 (rows tx0) /\ kept r0 = true /\
      ((matching_rates (long_table fx) (set_date (date_key r0) r0) = [] /\ R = nan) \/
       In R (matching_rates (long_table fx) (set_date (date_key r0) r0))) /\
      r = set_amount_usd (usd_amount (set_per_usd R (set_date (date_key r0) r0)))
            (set_per_usd R (set_date (date_key r0) r0)).
Proof.
  intros Hex Hload Hdate H r. apply prepare_ok in H as (tx1 & H1 & H2).
  destruct (convert_dates w fx tx1 out Hex Hload Hdate H2) as [dates Hd].
  rewrite (convert_joined w fx dates tx1 Hex Hload Hdate Hd) in H2. injection H2 as <-.
  apply clean_ok in H1 as [R1 _].
  split.
  - intros H. apply in_convert_joined in H as (r1 & R & Hin & HR & ->). rewrite R1 in Hin.
    apply in_map_iff in Hin as (r0 & <- & Hin). apply filter_In in Hin as [Hin Hk].
    exists r0, R. auto.
  - intros (r0 & R & Hin & Hk & HR & ->). apply in_convert_joined.
    exists (set_date (date_key r0) r0), R. repeat split; auto.
    rewrite R1. apply in_map_iff. exists r0. split; [reflexivity|].
    apply filter_In. auto.
Qed.

Lemma prepare_total w tx0 :
  has_column "timestamp" (columns tx0) = true ->
  has_column "amount" (columns tx0) = true ->
  has_column "currency" (columns tx0) = true ->
  (forall tx1, exists out, convert w tx1 = Ok out) ->
  exists out, prepare w tx0 = Ok out.
Proof.
  intros Ht Ha Hc Hconv. destruct (clean_total tx0 Ht Ha Hc) as [tx1 H1].
  destruct (Hconv tx1) as [out H2]. exists out. unfold prepare. now rewrite H1.
Qed.

(** ** The long table, read off the wide one *)

Lemma in_combine_seq {A : Type} (l : list A) s i c :
  In (i, c) (combine (seq s (List.length l)) l) <->
  exists k, i = s + k /\ nth_error l k = Some c.
Proof.
  revert s. induction l as [|x l IH]; intros s; cbn.
  - split; [intros []|]. intros ([|k] & _ & H); discriminate.
  - rewrite IH. split.
    + intros [[= <- <-]|(k & -> & Hk)].
      * exists 0. split; [lia|reflexivity].
      * exists (S k). split; [lia|exact Hk].
    + intros ([|k] & -> & Hk).
      * left. cbn in Hk. injection Hk as ->. f_equal. lia.
      * right. exists k. split; [lia|exact Hk].
Qed.

Lemma in_melt fx l :
  In l (melt fx) <->
  exists i c row, nth_error (value_vars fx) i = Some c /\ In row (fx_rows fx) /\
                  l = mkLong (fx_date row) c (nth i (fx_values row) nan).
Proof.
  unfold melt. rewrite in_flat_map. split.
  - intros ([i c] & Hic & Hl). apply in_combine_seq in Hic as (k & -> & Hk).
    apply in_map_iff in Hl as (row & <- & Hrow). exists k, c, row. auto.
  - intros (i & c & row & Hc & Hrow & ->). exists (i, c). split.
    + apply in_combine_seq. now exists i.
    + apply in_map_iff. now exists row.
Qed.

Lemma long_table_map fx :
  long_table fx
  = map (fun l => mkLong (dt_date (long_date l)) (long_currency l) (long_per_usd l))
        (melt fx).
Proof.
  unfold long_table, with_dates. rewrite map_map, combine_map_self, map_map. reflexivity.
Qed.

Lemma opt_eqb_eq {A : Type} (eqb : A -> A -> bool) :
  (forall a b, eqb a b = true <-> a = b) ->
  forall x y, opt_eqb eqb x y = true <-> x = y.
Proof.
  intros H [a|] [b|]; cbn; try (split; [discriminate|discriminate]); try tauto.
  rewrite H. split; [now intros ->|now intros [= ->]].
Qed.

Lemma key_eqb_true r l :
  key_eqb r l = true <-> date r = long_date l /\ currency r = Some (long_currency l).
Proof.
  unfold key_eqb. rewrite andb_true_iff.
  rewrite (opt_eqb_eq Z.eqb Z.eqb_eq), (opt_eqb_eq String.eqb String.eqb_eq). tauto.
Qed.

(** The rates joined to a row are the rates the wide table holds for its
    date and currency. *)
Lemma matching_rates_rate_at fx r R :
  In R (matching_rates (long_table fx) r) <->
  exists c, currency r = Some c /\ rate_at fx (date r) c R.
Proof.
  unfold matching_rates, rate_at. rewrite in_map_iff, long_table_map. split.
  - intros (l & <- & Hl). apply filter_In in Hl as [Hl Hk].
    apply key_eqb_true in Hk as [Hd Hc].
    apply in_map_iff in Hl as (m & <- & Hm).
    apply in_melt in Hm as (i & c & row & Hi & Hrow & ->). cbn in *.
    exists c. split; [exact Hc|]. exists i, row. auto.
  - intros (c & Hc & i & row & Hi & Hrow & Hd & <-).
    exists (mkLong (dt_date (fx_date row)) c (nth i (fx_values row) nan)).
    split; [reflexivity|]. apply filter_In. split.
    + apply in_map_iff. exists (mkLong (fx_date row) c (nth i (fx_values row) nan)).
      split; [reflexivity|]. apply in_melt. exists i, c, row. auto.
    + apply key_eqb_true. cbn. auto.
Qed.

Lemma matching_rates_nil fx r :
  matching_rates (long_table fx) r = [] <->
  forall c R, currency r = Some c -> ~ rate_at fx (date r) c R.
Proof.
  split.
  - intros Hn c R Hc HR.
    assert (In R (matching_rates (long_table fx) r)) as Hin
      by (apply matching_rates_rate_at; eauto).
    rewrite Hn in Hin. destruct Hin.
  - intros H. destruct (matching_rates (long_table fx) r) as [|R l] eqn:E; [reflexivity|].
    assert (In R (matching_rates (long_table fx) r)) as Hin by (rewrite E; now left).
    apply matching_rates_rate_at in Hin as (c & Hc & HR). now destruct (H c R Hc).
Qed.

(** ** Converted amounts *)

Lemma is_usd_iff r : is_usd r = true <-> currency r = Some "USD".
Proof. unfold is_usd. apply (opt_eqb_eq String.eqb String.eqb_eq). Qed.

Lemma is_usd_false r c : currency r = Some c -> c <> "USD" -> is_usd r = false.
Proof.
  intros Hc Hne. destruct (is_usd r) eqn:E; [|reflexivity].
  apply is_usd_iff in E. congruence.
Qed.

(** In a joined conversion every kept row has an image, whatever the rates. *)
Lemma joined_row_exists fxl r1 :
  exists R, (matching_rates fxl r1 = [] /\ R = nan) \/ In R (matching_rates fxl r1).
Proof.
  destruct (matching_rates fxl r1) as [|R l].
  - exists nan. now left.
  - exists R. right. now left.
Qed.

(** C1. With the rate table present and keyed by date, every row of the
    prepared table whose currency is USD has its raw amount as converted
    amount, exactly; and every loaded USD row that is kept has such a row in
    the prepared table. *)
Theorem usd_rows_keep_amount w fx tx0 out :
  fx_exists w = true ->
  load_parquet (fx_io w) (FX w) None = Ok fx ->
  has_column "date" (fx_columns fx) = true ->
  prepare w tx0 = Ok out ->
  (forall r, In r (rows out) -> currency r = Some "USD" -> amount_usd r = amount r) /\
  (forall r0, In r0 (rows tx0) -> kept r0 = true -> currency r0 = Some "USD" ->
     exists r, In r (rows out) /\ same_transaction r0 r /\ amount_usd r = amount r0).
Proof.
  intros Hex Hload Hdate Hprep.
  pose proof (prepare_joined_rows w fx tx0 out Hex Hload Hdate Hprep) as Hrows.
  split.
  - intros r Hin Hc. apply Hrows in Hin as (r0 & R & _ & _ & _ & ->).
    cbn in Hc |- *. unfold usd_amount.
    replace (is_usd (set_per_usd R (set_date (date_key r0) r0))) with true; [reflexivity|].
    symmetry. apply is_usd_iff. exact Hc.
  - intros r0 Hin Hk Hc.
    destruct (joined_row_exists (long_table fx) (set_date (date_key r0) r0)) as [R HR].
    eexists. split; [apply Hrows; exists r0, R; eauto|].
    split; [apply same_transaction_converted|].
    cbn. unfold usd_amount.
    replace (is_usd (set_per_usd R (set_date (date_key r0) r0))) with true; [reflexivity|].
    symmetry. apply is_usd_iff. exact Hc.
Qed.

Lemma usd_rows_keep_amount_witness :
  (forall r, In r (rows sample_prepared) -> currency r = Some "USD" ->
             amount_usd r = amount r) /\
  (forall r0, In r0 (rows sample_tx) -> kept r0 = true -> currency r0 = Some "USD" ->
     exists r, In r (rows sample_prepared) /\ same_transaction r0 r /\
               amount_usd r = amount r0).
Proof.
  apply (usd_rows_keep_amount sample_world sample_fx sample_tx sample_prepared);
    vm_compute; reflexivity.
Defined.

(** C2. With the rate table present and keyed by date, every row of the
    prepared table in another currency than USD has its amount divided by
    the joined rate as converted amount; and for every kept loaded row in
    another currency and every rate [R] the table holds for its date and
    currency, the prepared table has that row with [amount / R]. *)
Theorem foreign_rows_divide_by_rate w fx tx0 out :
  fx_exists w = true ->
  load_parquet (fx_io w) (FX w) None = Ok fx ->
  has_column "date" (fx_columns fx) = true ->
  prepare w tx0 = Ok out ->
  (forall r c, In r (rows out) -> currency r = Some c -> c <> "USD" ->
     amount_usd r = (amount r / per_usd r)%float /\
     (rate_at fx (date_key r) c (per_usd r) \/
      (per_usd r = nan /\ forall R, ~ rate_at fx (date_key r) c R))) /\
  (forall r0 c R, In r0 (rows tx0) -> kept r0 = true ->
     currency r0 = Some c -> c <> "USD" -> rate_at fx (date_key r0) c R ->
     exists r, In r (rows out) /\ same_transaction r0 r /\ per_usd r = R /\
               amount_usd r = (amount r0 / R)%float).
Proof.
  intros Hex Hload Hdate Hprep.
  pose proof (prepare_joined_rows w fx tx0 out Hex Hload Hdate Hprep) as Hrows.
  split.
  - intros r c Hin Hc Hne. apply Hrows in Hin as (r0 & R & _ & _ & HR & ->).
    cbn in Hc. split.
    + cbn. unfold usd_amount.
      rewrite (is_usd_false (set_per_usd R (set_date (date_key r0) r0)) c Hc Hne).
      reflexivity.
    + change (date_key (set_amount_usd (usd_amount (set_per_usd R (set_date (date_key r0) r0)))
                          (set_per_usd R (set_date (date_key r0) r0))))
        with (date (set_date (date_key r0) r0)).
      cbn [per_usd set_amount_usd set_per_usd].
      destruct HR as [[Hn ->]|HR].
      * right. split; [reflexivity|]. intros R HR.
        apply (proj1 (matching_rates_nil fx _) Hn c R Hc). exact HR.
      * left. apply matching_rates_rate_at in HR as (c' & Hc' & HR).
        cbn in Hc'. rewrite Hc in Hc'. injection Hc' as <-. exact HR.
  - intros r0 c R Hin Hk Hc Hne HR.
    eexists. split.
    + apply Hrows. exists r0, R. repeat split; auto. right.
      apply matching_rates_rate_at. exists c. split; [exact Hc|exact HR].
    + split; [apply same_transaction_converted|]. split; [reflexivity|].
      cbn. unfold usd_amount.
      rewrite (is_usd_false (set_per_usd R (set_date (date_key r0) r0)) c Hc Hne).
      reflexivity.
Qed.

Lemma foreign_rows_divide_by_rate_witness :
  (forall r c, In r (rows sample_prepared) -> currency r = Some c -> c <> "USD" ->
     amount_usd r = (amount r / per_usd r)%float /\
     (rate_at sample_fx (date_key r) c (per_usd r) \/
      (per_usd r = nan /\ forall R, ~ rate_at sample_fx (date_key r) c R))) /\
  (forall r0 c R, In r0 (rows sample_tx) -> kept r0 = true ->
     currency r0 = Some c -> c <> "USD" -> rate_at sample_fx (date_key r0) c R ->
     exists r, In r (rows sample_prepared) /\ same_transaction r0 r /\ per_usd r = R /\
               amount_usd r = (amount r0 / R)%float).
Proof.
  apply (foreign_rows_divide_by_rate sample_world sample_fx sample_tx sample_prepared);
    vm_compute; reflexivity.
Defined.

Example sample_rate_lookup :
  rate_at sample_fx (Some 19000%Z) "EUR" rate_09 /\
  date_key (sample_row "c2" (at_hour 19000 3) 50 (Some "EUR") true (merchants 4))
  = Some 19000%Z.
Proof.
  split; [|reflexivity]. exists 0, (mkFxRow (Instant (19000 * ns_per_day)%Z) [rate_09; 1%float]).
  repeat split. now left.
Qed.

(** The scenario of two transactions, 100 USD and 50 EUR at 0.9 EUR per USD
    (and a third one, in a currency without a rate). *)
Example sample_converted_amounts :
  map (fun r => (currency r, amount r, amount_usd r)) (rows sample_prepared)
  = [ (Some "USD", 100, 100);
      (Some "EUR", 50, 50 / rate_09);
      (Some "GBP", 70, nan) ]%float
  /\ (50 / rate_09 = 0x1.bc71c71c71c72p+5)%float.
Proof. split; vm_compute; reflexivity. Qed.

(** C3. If the rate file is absent, or is read but has no [date] column, then
    the conversion raises nothing and gives every row its raw amount as
    converted amount: the prepared table holds the kept rows, each with
    [amount_usd] equal to [amount]. *)
Theorem identity_without_rates w tx0 tx1 :
  fx_exists w = false \/
  (exists fx, fx_exists w = true /\ load_parquet (fx_io w) (FX w) None = Ok fx /\
              has_column "date" (fx_columns fx) = false) ->
  clean tx0 = Ok tx1 ->
  exists out,
    convert w tx1 = Ok out /\ prepare w tx0 = Ok out /\
    map amount (rows out) = map amount (filter kept (rows tx0)) /\
    (forall r, In r (rows out) -> amount_usd r = amount r) /\
    (forall r0, In r0 (rows tx0) -> kept r0 = true ->
       exists r, In r (rows out) /\ same_transaction r0 r /\ amount_usd r = amount r0).
Proof.
  intros Hfx Hclean.
  pose proof (convert_identity w tx1 Hfx) as Hconv.
  assert (prepare w tx0 = Ok (assign set_amount_usd amount_usd_col
                                (map amount (rows tx1)) tx1)) as Hprep.
  { unfold prepare. rewrite Hclean. exact Hconv. }
  eexists. split; [exact Hconv|]. split; [exact Hprep|].
  pose proof (prepare_identity_rows w tx0 _ Hfx Hprep) as Hrows.
  rewrite Hrows. split; [|split].
  - rewrite map_map. reflexivity.
  - intros r Hin. apply in_map_iff in Hin as (r0 & <- & _). reflexivity.
  - intros r0 Hin Hk. eexists. split.
    + apply in_map_iff. exists r0. split; [reflexivity|]. apply filter_In. auto.
    + split; [|reflexivity]. repeat split.
Qed.

Lemma identity_without_rates_witness :
  (exists out,
     convert sample_world_no_rates sample_cleaned = Ok out /\
     prepare sample_world_no_rates sample_tx = Ok out /\
     map amount (rows out) = map amount (filter kept (rows sample_tx)) /\
     (forall r, In r (rows out) -> amount_usd r = amount r) /\
     (forall r0, In r0 (rows sample_tx) -> kept r0 = true ->
        exists r, In r (rows out) /\ same_transaction r0 r /\ amount_usd r = amount r0)) /\
  (exists out,
     convert sample_world_undated sample_cleaned = Ok out /\
     prepare sample_world_undated sample_tx = Ok out /\
     map amount (rows out) = map amount (filter kept (rows sample_tx)) /\
     (forall r, In r (rows out) -> amount_usd r = amount r) /\
     (forall r0, In r0 (rows sample_tx) -> kept r0 = true ->
        exists r, In r (rows out) /\ same_transaction r0 r /\ amount_usd r = amount r0)).
Proof.
  split.
  - apply (identity_without_rates sample_world_no_rates sample_tx sample_cleaned).
    + left. reflexivity.
    + vm_compute. reflexivity.
  - apply (identity_without_rates sample_world_undated sample_tx sample_cleaned).
    + right. exists sample_fx_undated. repeat split; vm_compute; reflexivity.
    + vm_compute. reflexivity.
Defined.



(** ** The run as a whole *)

Lemma convert_rows_source w tx1 out :
  convert w tx1 = Ok out ->
  forall r, In r (rows out) -> exists r1, In r1 (rows tx1) /\ same_transaction r1 r.
Proof.
  intros H r Hin.
  destruct (fx_exists w) eqn:Hex.
  - destruct (load_parquet (fx_io w) (FX w) None) as [fx|e] eqn:Hload.
    + destruct (has_column "date" (fx_columns fx)) eqn:Hdate.
      * destruct (convert_dates w fx tx1 out Hex Hload Hdate H) as [dates Hd].
        rewrite (convert_joined w fx dates tx1 Hex Hload Hdate Hd) in H.
        injection H as <-.
        apply in_convert_joined in Hin as (r1 & R & Hin & _ & ->).
        exists r1. split; [exact Hin|]. repeat split.
      * rewrite (convert_identity w tx1) in H by (right; exists fx; auto).
        injection H as <-. rewrite rows_assign in Hin.
        apply in_map_iff in Hin as (r1 & <- & Hin).
        exists r1. split; [exact Hin|]. repeat split.
    + unfold convert in H. rewrite Hex, Hload in H. discriminate.
  - rewrite (convert_identity w tx1) in H by (left; exact Hex).
    injection H as <-. rewrite rows_assign in Hin.
    apply in_map_iff in Hin as (r1 & <- & Hin).
    exists r1. split; [exact Hin|]. repeat split.
Qed.

Lemma convert_columns_inv w tx1 out c :
  convert w tx1 = Ok out ->
  c <> "per_usd" -> c <> "amount_usd" ->
  has_column c (columns out) = has_column c (columns tx1).
Proof.
  unfold convert. intros H H1 H2.
  apply String.eqb_neq in H1, H2.
  destruct (fx_exists w).
  - destruct (load_parquet (fx_io w) (FX w) None) as [fx|e]; [|discriminate].
    cbn [bind] in H. destruct (has_column "date" (fx_columns fx)).
    + destruct (to_datetime (map long_date (melt fx))) as [dates|e]; [|discriminate].
      cbn [bind] in H. injection H as <-.
      rewrite columns_assign. unfold merge_left. cbn [columns].
      rewrite has_column_add. unfold amount_usd_col. rewrite H1, H2.
      now rewrite !orb_false_r.
    + injection H as <-. rewrite columns_assign. unfold amount_usd_col.
      rewrite H2. now rewrite orb_false_r.
  - injection H as <-. rewrite columns_assign. unfold amount_usd_col.
    rewrite H2. now rewrite orb_false_r.
Qed.

Lemma prepare_rows_source w tx0 out :
  prepare w tx0 = Ok out ->
  forall r, In r (rows out) ->
    exists r0, In r0 (rows tx0) /\ kept r0 = true /\ same_transaction r0 r.
Proof.
  intros H r Hin. apply prepare_ok in H as (tx1 & H1 & H2).
  destruct (convert_rows_source w tx1 out H2 r Hin) as (r1 & Hin1 & Hs).
  apply clean_ok in H1 as [R1 _]. rewrite R1 in Hin1.
  apply in_map_iff in Hin1 as (r0 & <- & Hin0). apply filter_In in Hin0 as [Hin0 Hk].
  exists r0. repeat split; try exact Hin0; try exact Hk; apply Hs.
Qed.

Lemma prepare_columns_inv w tx0 out c :
  prepare w tx0 = Ok out ->
  c <> "per_usd" -> c <> "amount_usd" -> c <> "date" -> c <> "timestamp" ->
  has_column c (columns out) = has_column c (columns tx0).
Proof.
  intros H H1 H2 H3 H4. apply prepare_ok in H as (tx1 & Hc & Hv).
  rewrite (convert_columns_inv w tx1 out c Hv H1 H2).
  apply clean_ok in Hc as [_ C]. rewrite C.
  apply String.eqb_neq in H3, H4. rewrite H3, H4. now rewrite !orb_false_r.
Qed.

(** What [main] returns, in terms of the prepared table. *)
Lemma main_ok w out :
  main w = Ok out ->
  exists tx0 tx,
    load_parquet (tx_io w) (TX w) (Some tx_cols) = Ok tx0 /\
    prepare w tx0 = Ok tx /\
    table out = (if has_column "is_fraud" (columns tx) then with_hour tx else tx) /\
    report out = lines w (table out) (total tx) (fraud tx) (fraud_rate tx) /\
    amount_usd_hist out = hist_values tx /\
    fraud_rate_by_hour out
    = (if has_column "is_fraud" (columns tx) then Some (by_hour (with_hour tx)) else None).
Proof.
  unfold main. intros H.
  apply bind_ok in H as (tx0 & H0 & H). apply bind_ok in H as (tx & H1 & H).
  injection H as <-. exists tx0, tx. cbn [table report amount_usd_hist fraud_rate_by_hour].
  split; [exact H0|]. split; [exact H1|]. repeat split.
  now destruct (has_column "is_fraud" (columns tx)).
Qed.

Lemma rows_with_hour tx :
  rows (with_hour tx) = map (fun r => set_hour (dt_hour (timestamp r)) r) (rows tx).
Proof. unfold with_hour. rewrite map_map. apply rows_assign. Qed.

Lemma with_hour_column tx c :
  c <> "hour" -> has_column c (columns (with_hour tx)) = has_column c (columns tx).
Proof.
  intros H. unfold with_hour. rewrite columns_assign.
  apply String.eqb_neq in H. rewrite H. apply orb_false_r.
Qed.

Lemma total_with_hour tx : total (with_hour tx) = total tx.
Proof. unfold total. rewrite rows_with_hour. apply length_map. Qed.

Lemma fraud_with_hour tx : fraud (with_hour tx) = fraud tx.
Proof.
  unfold fraud. rewrite with_hour_column by discriminate.
  rewrite rows_with_hour, map_map. reflexivity.
Qed.

Lemma fraud_rate_with_hour tx : fraud_rate (with_hour tx) = fraud_rate tx.
Proof.
  unfold fraud_rate. rewrite with_hour_column by discriminate.
  rewrite rows_with_hour, map_map. reflexivity.
Qed.

Lemma hist_values_with_hour tx : hist_values (with_hour tx) = hist_values tx.
Proof. unfold hist_values. rewrite rows_with_hour, map_map. reflexivity. Qed.

(** Every aggregate of a run is computed from the rows of its final table. *)
Lemma main_aggregates w out :
  main w = Ok out ->
  report out = lines w (table out) (total (table out)) (fraud (table out))
                     (fraud_rate (table out)) /\
  amount_usd_hist out = hist_values (table out) /\
  fraud_rate_by_hour out
  = (if has_column "is_fraud" (columns (table out))
     then Some (by_hour (table out)) else None).
Proof.
  intros H. apply main_ok in H as (tx0 & tx & _ & _ & Ht & Hr & Hh & Hf).
  rewrite Hr, Hh, Hf, Ht.
  destruct (has_column "is_fraud" (columns tx)) eqn:E.
  - rewrite total_with_hour, fraud_with_hour, fraud_rate_with_hour,
      hist_values_with_hour, with_hour_column, E by discriminate. auto.
  - rewrite E. auto.
Qed.

Lemma main_columns w tx0 out c :
  load_parquet (tx_io w) (TX w) (Some tx_cols) = Ok tx0 ->
  main w = Ok out ->
  c <> "per_usd" -> c <> "amount_usd" -> c <> "date" -> c <> "timestamp" -> c <> "hour" ->
  has_column c (columns (table out)) = has_column c (columns tx0).
Proof.
  intros Hload Hmain H1 H2 H3 H4 H5.
  apply main_ok in Hmain as (tx0' & tx & Hload' & Hprep & Ht & _).
  rewrite Hload in Hload'. injection Hload' as <-.
  rewrite <- (prepare_columns_inv w tx0 tx c Hprep H1 H2 H3 H4).
  rewrite Ht. destruct (has_column "is_fraud" (columns tx)); [|reflexivity].
  now apply with_hour_column.
Qed.

Lemma main_rows_source w tx0 out :
  load_parquet (tx_io w) (TX w) (Some tx_cols) = Ok tx0 ->
  main w = Ok out ->
  forall r, In r (rows (table out)) ->
    exists r0, In r0 (rows tx0) /\ kept r0 = true /\ same_transaction r0 r.
Proof.
  intros Hload Hmain r Hin.
  apply main_ok in Hmain as (tx0' & tx & Hload' & Hprep & Ht & _).
  rewrite Hload in Hload'. injection Hload' as <-.
  assert (exists r', In r' (rows tx) /\ same_transaction r' r) as (r' & Hin' & Hs').
  { rewrite Ht in Hin. destruct (has_column "is_fraud" (columns tx)).
    - rewrite rows_with_hour in Hin. apply in_map_iff in Hin as (r' & <- & Hin).
      exists r'. split; [exact Hin|]. repeat split.
    - exists r. split; [exact Hin|]. apply same_transaction_refl. }
  destruct (prepare_rows_source w tx0 tx Hprep r' Hin') as (r0 & Hin0 & Hk & Hs).
  exists r0. split; [exact Hin0|]. split; [exact Hk|].
  destruct Hs as (a1 & a2 & a3 & a4 & a5 & a6 & a7).
  destruct Hs' as (b1 & b2 & b3 & b4 & b5 & b6 & b7).
  repeat split; congruence.
Qed.

Lemma kept_false_iff r :
  kept r = false <->
  timestamp r = NaT \/ (exists raw, timestamp r = Unparsed raw) \/
  is_nan (amount r) = true \/ currency r = None.
Proof.
  unfold kept. split.
  - destruct (timestamp r) as [|ns|raw]; eauto.
    destruct (is_nan (amount r)); [auto|].
    destruct (currency r); [discriminate|auto].
  - intros [->|[(raw & ->)|[H|H]]]; try reflexivity;
      destruct (timestamp r); try reflexivity; rewrite H; cbn;
      [reflexivity|apply andb_false_r].
Qed.

(** C5. A loaded row with a missing timestamp, amount or currency, or with a
    timestamp that does not convert, is dropped by the cleaning, before the
    conversion; every row of the final table of a run is a kept loaded row,
    and the row count, the fraud statistics, the amount distribution and the
    customer metric of the run are all computed from the rows of that table. *)
Theorem dropped_rows_never_reappear w tx0 out :
  load_parquet (tx_io w) (TX w) (Some tx_cols) = Ok tx0 ->
  main w = Ok out ->
  (forall r0, kept r0 = false <->
     timestamp r0 = NaT \/ (exists raw, timestamp r0 = Unparsed raw) \/
     is_nan (amount r0) = true \/ currency r0 = None) /\
  (exists tx1 tx,
     clean tx0 = Ok tx1 /\ convert w tx1 = Ok tx /\
     rows tx1 = map (fun r => set_date (date_key r) r) (filter kept (rows tx0))) /\
  (forall r, In r (rows (table out)) ->
     kept r = true /\
     exists r0, In r0 (rows tx0) /\ kept r0 = true /\ same_transaction r0 r) /\
  report out
  = lines w (table out) (List.length (rows (table out))) (fraud (table out))
          (fraud_rate (table out)) /\
  amount_usd_hist out = hist_values (table out) /\
  fraud_rate_by_hour out
  = (if has_column "is_fraud" (columns (table out))
     then Some (by_hour (table out)) else None).
Proof.
  intros Hload Hmain. split; [exact kept_false_iff|].
  pose proof (main_aggregates w out Hmain) as Hagg.
  pose proof (main_rows_source w tx0 out Hload Hmain) as Hsrc.
  apply main_ok in Hmain as (tx0' & tx & Hload' & Hprep & _).
  rewrite Hload in Hload'. injection Hload' as <-.
  split; [|split; [|exact Hagg]].
  - destruct (prepare_ok w tx0 tx Hprep) as (tx1 & Hc & Hv).
    exists tx1, tx. split; [exact Hc|]. split; [exact Hv|].
    apply clean_ok in Hc as [-> _]. reflexivity.
  - intros r Hin. destruct (Hsrc r Hin) as (r0 & Hin0 & Hk & Hs).
    split; [rewrite (kept_same_transaction r0 r Hs); exact Hk|].
    exists r0. auto.
Qed.

Lemma dropped_rows_never_reappear_witness :
  (forall r0, kept r0 = false <->
     timestamp r0 = NaT \/ (exists raw, timestamp r0 = Unparsed raw) \/
     is_nan (amount r0) = true \/ currency r0 = None) /\
  (exists tx1 tx,
     clean sample_tx = Ok tx1 /\ convert sample_world tx1 = Ok tx /\
     rows tx1 = map (fun r => set_date (date_key r) r) (filter kept (rows sample_tx))) /\
  (forall r, In r (rows (table sample_output)) ->
     kept r = true /\
     exists r0, In r0 (rows sample_tx) /\ kept r0 = true /\ same_transaction r0 r) /\
  report sample_output
  = lines sample_world (table sample_output) (List.length (rows (table sample_output)))
          (fraud (table sample_output)) (fraud_rate (table sample_output)) /\
  amount_usd_hist sample_output = hist_values (table sample_output) /\
  fraud_rate_by_hour sample_output
  = (if has_column "is_fraud" (columns (table sample_output))
     then Some (by_hour (table sample_output)) else None).
Proof.
  apply (dropped_rows_never_reappear sample_world sample_tx sample_output);
    vm_compute; reflexivity.
Defined.

(** Of the seven sample rows, the four with a missing or unconvertible
    required value are gone from the final table. *)
Example sample_kept_customers :
  map customer_id (rows sample_tx)
  = [Some "c1"; Some "c2"; Some "c3"; Some "c4"; Some "c5"; Some "c6"; Some "c7"] /\
  map customer_id (rows (table sample_output)) = [Some "c1"; Some "c2"; Some "c3"].
Proof. split; vm_compute; reflexivity. Qed.

(** ** Sorting, distinct values and groups *)

Lemma in_insert_by {A : Type} (leb : A -> A -> bool) x y l :
  In y (insert_by leb x l) <-> y = x \/ In y l.
Proof.
  induction l as [|z l IH]; cbn.
  - split; [intros [<-|[]]; now left|intros [->|[]]; now left].
  - destruct (leb x z); cbn; [split; intros [H|H]; subst; auto|].
    rewrite IH. split; intros H; tauto.
Qed.

Lemma in_sort_by {A : Type} (leb : A -> A -> bool) y l :
  In y (sort_by leb l) <-> In y l.
Proof.
  unfold sort_by. induction l as [|x l IH]; cbn; [tauto|].
  rewrite in_insert_by, IH. split; intros [H|H]; subst; auto.
Qed.

Lemma NoDup_insert_by {A : Type} (leb : A -> A -> bool) x l :
  ~ In x l -> NoDup l -> NoDup (insert_by leb x l).
Proof.
  induction l as [|z l IH]; cbn; intros Hx Hl.
  - constructor; [intros []|constructor].
  - destruct (leb x z).
    + constructor; [exact Hx|exact Hl].
    + inversion Hl as [|? ? Hz Hl']; subst. constructor.
      * rewrite in_insert_by. intros [->|H]; [apply Hx; now left|contradiction].
      * apply IH; [intros H; apply Hx; now right|exact Hl'].
Qed.

Lemma NoDup_sort_by {A : Type} (leb : A -> A -> bool) l :
  NoDup l -> NoDup (sort_by leb l).
Proof.
  unfold sort_by. induction 1 as [|x l Hx Hl IH]; cbn; [constructor|].
  apply NoDup_insert_by; [|exact IH].
  intros H. apply Hx. apply (in_sort_by leb). exact H.
Qed.

Section Uniques.
Context {A : Type} (eqb : A -> A -> bool).
Hypothesis eqb_eq : forall a b, eqb a b = true <-> a = b.

Lemma in_uniques y l : In y (uniques eqb l) <-> In y l.
Proof.
  induction l as [|x l IH]; cbn; [tauto|].
  rewrite filter_In, IH. split.
  - intros [H|[H _]]; auto.
  - intros [H|H]; [now left|].
    destruct (eqb x y) eqn:E; [left; now apply eqb_eq|right; split; [exact H|reflexivity]].
Qed.

Lemma NoDup_uniques l : NoDup (uniques eqb l).
Proof.
  induction l as [|x l IH]; cbn; constructor.
  - rewrite filter_In. intros [_ H].
    assert (eqb x x = true) as E by now apply eqb_eq. now rewrite E in H.
  - now apply NoDup_filter.
Qed.

End Uniques.

Lemma in_present {A : Type} (a : A) l : In a (present l) <-> In (Some a) l.
Proof.
  unfold present. rewrite in_flat_map. split.
  - intros ([b|] & Hin & H); [|destruct H]. destruct H as [<-|[]]. exact Hin.
  - intros H. exists (Some a). split; [exact H|now left].
Qed.

Lemma filter_combine_map {R K V : Type} (key : R -> K) (val : R -> V)
  (p : K -> bool) (l : list R) :
  map snd (filter (fun kv => p (fst kv)) (combine (map key l) (map val l)))
  = map val (filter (fun r => p (key r)) l).
Proof.
  induction l as [|r l IH]; cbn; [reflexivity|].
  destruct (p (key r)); cbn; now rewrite IH.
Qed.

Section GroupBy.
Context {K V : Type} (eqb leb : K -> K -> bool).
Hypothesis eqb_eq : forall a b, eqb a b = true <-> a = b.

Lemma groupby_keys keys (vals : list V) :
  map fst (groupby eqb leb keys vals) = sort_by leb (uniques eqb (present keys)).
Proof. unfold groupby. rewrite map_map. cbn. apply map_id. Qed.

Lemma NoDup_groupby keys (vals : list V) :
  NoDup (map fst (groupby eqb leb keys vals)).
Proof.
  rewrite groupby_keys. apply NoDup_sort_by. now apply NoDup_uniques.
Qed.

Lemma in_groupby keys (vals : list V) k vs :
  In (k, vs) (groupby eqb leb keys vals) <->
  In (Some k) keys /\
  vs = map snd (filter (fun kv => opt_eqb eqb (fst kv) (Some k)) (combine keys vals)).
Proof.
  unfold groupby. rewrite in_map_iff. split.
  - intros (k' & [= <- <-] & H).
    apply in_sort_by, (in_uniques eqb eqb_eq), in_present in H. auto.
  - intros [H ->]. exists k. split; [reflexivity|].
    apply in_sort_by, (in_uniques eqb eqb_eq), in_present. exact H.
Qed.

End GroupBy.

(** ** The fraud indicator in the report *)








(** The two sample reports. *)
Example sample_reports :
  report sample_output_unflagged
  = [Header "2025-01-01"; Blank; TotalTransactions 3;
     AmountNormalizedColumn "amount_usd";
     Blank; StructHeading; CustomersStrictlyAbove 1] /\
  report sample_output
  = [Header "2025-01-01"; Blank; TotalTransactions 3;
     FraudulentTransactions (Some 1); FraudRate (1 / 3 * 100)%float;
     AmountNormalizedColumn "amount_usd";
     Blank; Top5Heading; CountryCount "NL" 1;
     Blank; StructHeading; CustomersStrictlyAbove 1].
Proof. split; vm_compute; reflexivity. Qed.

(** ** Fraud rate by hour *)

Lemma dt_hour_range t h : dt_hour t = Some h -> (0 <= h <= 23)%Z.
Proof.
  destruct t as [|ns|raw]; cbn; try discriminate. intros [= <-].
  pose proof (Z.mod_pos_bound (ns / ns_per_hour) 24 eq_refl). lia.
Qed.

Lemma in_by_hour tx h m :
  In (h, m) (by_hour tx) <->
  (exists r, In r (rows tx) /\ hour r = Some h) /\
  m = mean_bool (map is_fraud
                   (filter (fun r => opt_eqb Z.eqb (hour r) (Some h)) (rows tx))).
Proof.
  unfold by_hour. rewrite in_map_iff.
  pose proof (filter_combine_map hour is_fraud (fun k => opt_eqb Z.eqb k (Some h)) (rows tx))
    as Hf.
  cbn beta in Hf. split.
  - intros ([k vs] & [= <- <-] & Hin). cbn [fst snd].
    apply (in_groupby Z.eqb Z.leb Z.eqb_eq) in Hin as [Hk ->].
    apply in_map_iff in Hk as (r & Hr & Hin). rewrite Hf. eauto.
  - intros [(r & Hin & Hr) ->]. eexists (h, _). split; [reflexivity|].
    apply (in_groupby Z.eqb Z.leb Z.eqb_eq). split.
    + apply in_map_iff. eauto.
    + symmetry. exact Hf.
Qed.

Lemma NoDup_by_hour tx : NoDup (map fst (by_hour tx)).
Proof.
  unfold by_hour. rewrite map_map. cbn [fst].
  apply (NoDup_groupby Z.eqb Z.leb Z.eqb_eq).
Qed.

(** C8. The series drawn by hour has one point per hour that occurs among
    the rows of the table, each hour being the hour of day, from 0 to 23, of
    the UTC timestamp of its rows; the value at hour [h] is the mean of the
    fraud indicator over the rows whose hour is [h], and over no other row. *)
Theorem fraud_rate_by_hour_is_hourly_mean w out series :
  main w = Ok out ->
  fraud_rate_by_hour out = Some series ->
  (forall r, In r (rows (table out)) ->
     hour r = dt_hour (timestamp r) /\ exists h, hour r = Some h) /\
  (forall h m, In (h, m) series <->
     (exists r, In r (rows (table out)) /\ hour r = Some h) /\
     m = mean_bool (map is_fraud
                      (filter (fun r => opt_eqb Z.eqb (hour r) (Some h))
                              (rows (table out))))) /\
  (forall h m, In (h, m) series -> (0 <= h <= 23)%Z) /\
  NoDup (map fst series).
Proof.
  intros Hmain Hseries.
  destruct (main_aggregates w out Hmain) as (_ & _ & Hhour).
  apply main_ok in Hmain as (tx0 & tx & _ & Hprep & Ht & _).
  rewrite Hseries in Hhour.
  destruct (has_column "is_fraud" (columns (table out))) eqn:Hcol; [|discriminate].
  injection Hhour as ->.
  assert (has_column "is_fraud" (columns tx) = true) as Hcol'.
  { rewrite Ht in Hcol. destruct (has_column "is_fraud" (columns tx)) eqn:E; [reflexivity|].
    congruence. }
  rewrite Hcol' in Ht.
  assert (forall r, In r (rows (table out)) ->
            hour r = dt_hour (timestamp r) /\ exists h, hour r = Some h) as Hrows.
  { intros r Hin. rewrite Ht, rows_with_hour in Hin.
    apply in_map_iff in Hin as (r' & <- & Hin). split; [reflexivity|].
    destruct (prepare_rows_source w tx0 tx Hprep r' Hin) as (r0 & _ & Hk & Hs).
    rewrite <- (kept_same_transaction r0 r' Hs) in Hk.
    apply kept_iff in Hk as ((ns & Hns) & _). cbn. rewrite Hns. cbn. eauto. }
  split; [exact Hrows|]. split; [intros h m; apply in_by_hour|].
  split; [|apply NoDup_by_hour].
  intros h m Hin. apply in_by_hour in Hin as [(r & Hin & Hr) _].
  destruct (Hrows r Hin) as [Hh _]. rewrite Hr in Hh. symmetry in Hh.
  now apply dt_hour_range in Hh.
Qed.

Lemma fraud_rate_by_hour_is_hourly_mean_witness :
  (forall r, In r (rows (table sample_output)) ->
     hour r = dt_hour (timestamp r) /\ exists h, hour r = Some h) /\
  (forall h m, In (h, m) [(3%Z, 1%float); (12%Z, 0%float)] <->
     (exists r, In r (rows (table sample_output)) /\ hour r = Some h) /\
     m = mean_bool (map is_fraud
                      (filter (fun r => opt_eqb Z.eqb (hour r) (Some h))
                              (rows (table sample_output))))) /\
  (forall h m, In (h, m) [(3%Z, 1%float); (12%Z, 0%float)] -> (0 <= h <= 23)%Z) /\
  NoDup (map fst [(3%Z, 1%float); (12%Z, 0%float)]).
Proof.
  apply (fraud_rate_by_hour_is_hourly_mean sample_world sample_output);
    vm_compute; reflexivity.
Defined.

(** Hours are taken by floor: an instant before the epoch falls in an hour
    of the day before. *)
Example dt_hour_before_epoch :
  dt_hour (Instant (-1)) = Some 23%Z /\ dt_date (Instant (-1)) = Some (-1)%Z
  /\ dt_hour (Instant (13 * ns_per_hour + 5)) = Some 13%Z.
Proof. repeat split. Qed.

(** ** The customer metric *)

Lemma combine_fst_snd {A B : Type} (l : list (A * B)) :
  combine (map fst l) (map snd l) = l.
Proof. induction l as [|[a b] l IH]; cbn; [reflexivity|]. now rewrite IH. Qed.

Lemma tmp_rows_of_customer tx c :
  map snd (filter (fun cu => opt_eqb String.eqb (fst cu) (Some c)) (tmp_rows tx))
  = customer_values tx c.
Proof.
  unfold tmp_rows, customer_values. rewrite map_map.
  induction (rows tx) as [|r l IH]; [reflexivity|].
  cbn [map combine filter fst snd].
  destruct (pyval_isna (unique_merchants (last_hour_activity r))) eqn:Hna;
    cbn [negb filter fst snd];
    destruct (opt_eqb String.eqb (customer_id r) (Some c)) eqn:Hc;
    cbn [map filter snd]; rewrite ?Hna; cbn [negb]; rewrite IH; reflexivity.
Qed.

Lemma tmp_rows_has_customer tx c :
  In (Some c) (map fst (tmp_rows tx)) <-> customer_values tx c <> [].
Proof.
  rewrite <- tmp_rows_of_customer. split.
  - intros H Hnil. apply in_map_iff in H as ([k v] & Hk & Hin). cbn in Hk. subst k.
    assert (In (Some c, v)
              (filter (fun cu => opt_eqb String.eqb (fst cu) (Some c)) (tmp_rows tx))) as Hf.
    { apply filter_In. split; [exact Hin|].
      apply (opt_eqb_eq String.eqb String.eqb_eq). reflexivity. }
    apply (in_map snd) in Hf. rewrite Hnil in Hf. destruct Hf.
  - intros H.
    destruct (filter (fun cu => opt_eqb String.eqb (fst cu) (Some c)) (tmp_rows tx))
      as [|[k v] l] eqn:E; [now destruct H|].
    assert (In (k, v) (filter (fun cu => opt_eqb String.eqb (fst cu) (Some c))
                              (tmp_rows tx))) as Hin by (rewrite E; now left).
    apply filter_In in Hin as [Hin Hk].
    apply (opt_eqb_eq String.eqb String.eqb_eq) in Hk. cbn in Hk. subst k.
    apply in_map_iff. exists (Some c, v). auto.
Qed.











(** Strictly above, not at least: three customers with the same median have
    that median as threshold, and none of them is counted. *)
Example equal_medians_are_not_counted :
  quantile q95 [1; 1; 1]%float = 1%float /\
  count_above (quantile q95 [1; 1; 1]%float) [1; 1; 1]%float = 0 /\
  List.length (filter (fun m => (quantile q95 [1; 1; 1] <=? m)%float) [1; 1; 1]%float) = 3.
Proof. repeat split; vm_compute; reflexivity. Qed.

(** Medians and interpolated quantiles on small inputs. *)
Example median_quantile_values :
  median [3; 1; 2]%float = 2%float /\
  median [3; 1; 2; 10]%float = 2.5%float /\
  quantile q95 [1; 2; 3; 4; 5; 6; 7; 8; 9; 10; 11; 12; 13; 14; 15; 16; 17; 18; 19; 20;
               21]%float = 20%float /\
  quantile q95 [5]%float = 5%float /\
  is_nan (quantile q95 []) = true.
Proof. repeat split; vm_compute; reflexivity. Qed.

(** ** A table without activity values *)

Lemma tmp_rows_nil tx :
  (forall r, In r (rows tx) ->
     pyval_isna (unique_merchants (last_hour_activity r)) = true) ->
  tmp_rows tx = [].
Proof.
  unfold tmp_rows. rewrite map_map. induction (rows tx) as [|r l IH]; intros H.
  - reflexivity.
  - cbn [map combine filter snd]. rewrite (H r) by now left. cbn [negb].
    apply IH. intros r' Hin. apply H. now right.
Qed.

Lemma count_strict_without_values tx :
  has_column "customer_id" (columns tx) = true ->
  tmp_rows tx = [] ->
  customer_medians tx = Ok [] /\ count_strict tx = Ok 0.
Proof.
  intros Hc Hnil.
  assert (customer_medians tx = Ok []) as Hmed
    by (unfold customer_medians; rewrite Hc, Hnil; reflexivity).
  split; [exact Hmed|]. unfold count_strict. rewrite Hmed. reflexivity.
Qed.

Lemma kpi_lines_no_failure k rate l : In l (kpi_lines k rate) -> is_failure_line l = false.
Proof.
  unfold kpi_lines. destruct rate; [|intros []]. intros [<-|[<-|[]]]; reflexivity.
Qed.

Lemma amount_lines_no_failure tx l : In l (amount_lines tx) -> is_failure_line l = false.
Proof.
  unfold amount_lines. destruct (has_column amount_usd_col (columns tx)); [|intros []].
  intros [<-|[]]. reflexivity.
Qed.

Lemma top5_lines_no_failure tx l : In l (top5_lines tx) -> is_failure_line l = false.
Proof.
  unfold top5_lines.
  destruct (has_column "is_fraud" (columns tx) && has_column "country" (columns tx));
    [|intros []].
  intros [<-|[<-|H]]; try reflexivity.
  apply in_map_iff in H as (cv & <- & _). reflexivity.
Qed.

(** C10. If the loaded table has the activity column and customer ids, and
    the value extracted from every row is missing, then no median is formed,
    the 0.95 quantile of no median is NaN, no float is strictly above NaN,
    the metric is computed and is 0, and the report ends with the section of
    the metric, holding 0; no line of the failure note is written. *)
Theorem no_activity_counts_zero w tx0 out :
  load_parquet (tx_io w) (TX w) (Some tx_cols) = Ok tx0 ->
  main w = Ok out ->
  has_column "last_hour_activity" (columns tx0) = true ->
  has_column "customer_id" (columns tx0) = true ->
  forallb (fun r => pyval_isna (unique_merchants (last_hour_activity r))) (rows tx0) = true ->
  customer_medians (table out) = Ok [] /\
  is_nan (quantile q95 (map snd (@nil (string * float)))) = true /\
  (forall m, (quantile q95 (map snd (@nil (string * float))) <? m)%float = false) /\
  count_strict (table out) = Ok 0 /\
  (exists front,
     report out = front ++ [Blank; StructHeading; CustomersStrictlyAbove 0]) /\
  (forall l, In l (report out) -> is_failure_line l = false).
Proof.
  intros Hload Hmain Hact Hcust Hna.
  assert (tmp_rows (table out) = []) as Hnil.
  { apply tmp_rows_nil. intros r Hin.
    destruct (main_rows_source w tx0 out Hload Hmain r Hin) as (r0 & Hin0 & _ & Hs).
    destruct Hs as (_ & _ & _ & _ & _ & _ & ->).
    now apply (proj1 (forallb_forall _ _) Hna). }
  rewrite <- (main_columns w tx0 out "last_hour_activity" Hload Hmain) in Hact
    by discriminate.
  rewrite <- (main_columns w tx0 out "customer_id" Hload Hmain) in Hcust by discriminate.
  destruct (count_strict_without_values (table out) Hcust Hnil) as [Hmed Hcount].
  destruct (main_aggregates w out Hmain) as (Hrep & _ & _).
  assert (activity_lines (table out) = [Blank; StructHeading; CustomersStrictlyAbove 0])
    as Hlines by (unfold activity_lines; rewrite Hact, Hcount; reflexivity).
  split; [exact Hmed|]. split; [reflexivity|]. split; [intros m; apply ltb_nan_l|].
  split; [exact Hcount|]. rewrite Hrep. unfold lines. rewrite Hlines. split.
  - eexists. rewrite !app_assoc. reflexivity.
  - intros l Hin. rewrite !in_app_iff in Hin.
    destruct Hin as [[<-|[<-|[<-|[]]]]|[H|[H|[H|[<-|[<-|[<-|[]]]]]]]]; try reflexivity.
    + now apply kpi_lines_no_failure in H.
    + now apply amount_lines_no_failure in H.
    + now apply top5_lines_no_failure in H.
Qed.

Lemma no_activity_counts_zero_witness :
  customer_medians (table sample_output_inactive) = Ok [] /\
  is_nan (quantile q95 (map snd (@nil (string * float)))) = true /\
  (forall m, (quantile q95 (map snd (@nil (string * float))) <? m)%float = false) /\
  count_strict (table sample_output_inactive) = Ok 0 /\
  (exists front,
     report sample_output_inactive
     = front ++ [Blank; StructHeading; CustomersStrictlyAbove 0]) /\
  (forall l, In l (report sample_output_inactive) -> is_failure_line l = false).
Proof.
  apply (no_activity_counts_zero sample_world_inactive sample_tx_inactive
           sample_output_inactive); vm_compute; reflexivity.
Defined.

(** The failure note is what a value that is no number leads to. *)
Example unparseable_value_is_reported :
  activity_lines
    (mkFrame tx_cols
       [sample_row "c1" (noon 19000) 1 (Some "USD") false
          (Dict [("unique_merchants", PObj "many")])])
  = [Blank; ParseFailureHeading; CouldNotParse "many"].
Proof. reflexivity. Qed.

(** * Further properties of the code *)

(** ** to_utc *)


(** ** What load_parquet raises *)

(** X2. Whatever the readers raise, [load_parquet] raises nothing but a
    RuntimeError, and only when both strategies have failed; its message is
    made of the path and of what the fallback raised. *)
Theorem load_parquet_raises_runtime_error {T : Type} (io : Readers T) path columns e :
  load_parquet io path columns = Raise e ->
  exn_class e = "RuntimeError" /\
  exists e1 cause,
    read_parquet io path columns = Raise e1 /\
    duckdb_fallback io path columns = Raise cause /\
    exn_str e = cannot_read path cause.
Proof.
  unfold load_parquet.
  destruct (read_parquet io path columns) as [df|e1]; [discriminate|].
  destruct (duckdb_fallback io path columns) as [df|cause]; [discriminate|].
  intros [= <-]. split; [reflexivity|]. exists e1, cause. auto.
Qed.

Lemma load_parquet_raises_runtime_error_witness :
  exn_class (RuntimeError "Cannot read /srv/eda/x.parquet: not a parquet file")
  = "RuntimeError" /\
  exists e1 cause,
    read_parquet (@failing_readers DataFrame "bad magic" "not a parquet file")
      (joinpath sample_root "x.parquet") None = Raise e1 /\
    duckdb_fallback (@failing_readers DataFrame "bad magic" "not a parquet file")
      (joinpath sample_root "x.parquet") None = Raise cause /\
    exn_str (RuntimeError "Cannot read /srv/eda/x.parquet: not a parquet file")
    = cannot_read (joinpath sample_root "x.parquet") cause.
Proof.
  apply (load_parquet_raises_runtime_error
           (@failing_readers DataFrame "bad magic" "not a parquet file")
           (joinpath sample_root "x.parquet") None).
  reflexivity.
Defined.

(** X3. When the primary reader has failed, what it raised plays no part in the
    outcome: two sets of readers that differ only in the primary reader, both
    primaries failing, give the same result; and if duckdb cannot be imported
    or connected, the query is not what is reported but that failure. *)
Theorem load_parquet_forgets_primary_cause {T : Type} (io io' : Readers T) path columns e1 e1' :
  read_parquet io path columns = Raise e1 ->
  read_parquet io' path columns = Raise e1' ->
  duckdb_connect io' = duckdb_connect io ->
  duckdb_fetchdf io' (select_query path columns)
  = duckdb_fetchdf io (select_query path columns) ->
  load_parquet io' path columns = load_parquet io path columns /\
  (forall e, duckdb_connect io = Raise e ->
     load_parquet io path columns = Raise (RuntimeError (cannot_read path e))).
Proof.
  intros H1 H1' Hc Hq. unfold load_parquet, duckdb_fallback.
  rewrite H1, H1', Hc. split.
  - destruct (duckdb_connect io); cbn [bind]; [rewrite Hq|]; reflexivity.
  - intros e He. rewrite He. reflexivity.
Qed.

Lemma load_parquet_forgets_primary_cause_witness :
  load_parquet (@failing_readers DataFrame "truncated file" "not a parquet file")
    sample_root None
  = load_parquet (@failing_readers DataFrame "bad magic" "not a parquet file")
      sample_root None /\
  (forall e, duckdb_connect (@failing_readers DataFrame "bad magic" "not a parquet file")
             = Raise e ->
     load_parquet (@failing_readers DataFrame "bad magic" "not a parquet file")
       sample_root None
     = Raise (RuntimeError (cannot_read sample_root e))).
Proof.
  apply (load_parquet_forgets_primary_cause
           (@failing_readers DataFrame "bad magic" "not a parquet file")
           (@failing_readers DataFrame "truncated file" "not a parquet file")
           sample_root None
           (mkExn "ArrowInvalid" "bad magic") (mkExn "ArrowInvalid" "truncated file"));
    reflexivity.
Defined.

(** ** What the cleaning and the conversion raise *)


Lemma dropna_raise subset df e :
  dropna subset df = Raise e ->
  exn_class e = "KeyError" /\
  exists c, In c subset /\ has_column c (columns df) = false.
Proof.
  unfold dropna.
  destruct (filter (fun c => negb (has_column c (columns df))) subset) as [|c l] eqn:E;
    [discriminate|].
  intros [= <-]. split; [reflexivity|]. exists c.
  assert (In c (filter (fun c => negb (has_column c (columns df))) subset)) as H
    by (rewrite E; now left).
  apply filter_In in H as [Hin Hc]. split; [exact Hin|].
  now destruct (has_column c (columns df)).
Qed.

Lemma clean_raise tx e :
  clean tx = Raise e ->
  exn_class e = "KeyError" /\
  has_column "timestamp" (columns tx) && has_column "amount" (columns tx)
  && has_column "currency" (columns tx) = false.
Proof.
  unfold clean. intros H.
  destruct (dropna ["timestamp"; "amount"; "currency"] tx) as [tx1|e1] eqn:H1.
  - cbn [bind] in H. apply dropna_ok in H1 as [C1 _].
    match type of H with context [dropna ?s ?d] =>
      destruct (dropna s d) as [tx3|e3] eqn:H3 end; [discriminate|].
    cbn [bind] in H. injection H as <-.
    apply dropna_raise in H3 as [_ (c & [<-|[]] & Hc)].
    rewrite columns_assign, C1 in Hc. apply orb_false_elim in Hc as [_ Hc]. discriminate.
  - cbn [bind] in H. injection H as <-.
    apply dropna_raise in H1 as [Hk (c & Hin & Hc)]. split; [exact Hk|].
    destruct Hin as [<-|[<-|[<-|[]]]]; rewrite Hc; cbn;
      rewrite ?andb_false_r; reflexivity.
Qed.

(** X4. The cleaning raises exactly when the table lacks one of the columns
    [timestamp], [amount], [currency], and what it raises is a KeyError; no
    content of a row can make it fail. *)
Theorem clean_raises_iff_column_missing tx :
  ((exists e, clean tx = Raise e) <->
   has_column "timestamp" (columns tx) && has_column "amount" (columns tx)
   && has_column "currency" (columns tx) = false) /\
  (forall e, clean tx = Raise e -> exn_class e = "KeyError").
Proof.
  split; [split|].
  - intros [e H]. now apply clean_raise in H.
  - intros H. destruct (clean tx) as [tx'|e] eqn:E; [|eauto]. exfalso.
    destruct (has_column "timestamp" (columns tx)) eqn:Ht;
      destruct (has_column "amount" (columns tx)) eqn:Ha;
      destruct (has_column "currency" (columns tx)) eqn:Hc; try discriminate;
      unfold clean in E;
      (destruct (dropna ["timestamp"; "amount"; "currency"] tx) as [tx1|e1] eqn:H1;
       [|discriminate]);
      unfold dropna in H1; cbn [filter] in H1; rewrite Ht, Ha, Hc in H1;
      discriminate.
  - intros e H. now apply clean_raise in H.
Qed.





(** ** How a run fails *)




(** X7. A rate file that is there but cannot be read aborts the run with the
    RuntimeError of the loader: the amounts are not left unconverted. *)
Theorem main_aborts_on_unreadable_rates w tx0 tx1 e :
  load_parquet (tx_io w) (TX w) (Some tx_cols) = Ok tx0 ->
  clean tx0 = Ok tx1 ->
  fx_exists w = true ->
  load_parquet (fx_io w) (FX w) None = Raise e ->
  main w = Raise e /\ exn_class e = "RuntimeError" /\
  exists cause, exn_str e = cannot_read (FX w) cause.
Proof.
  intros Hl Hc Hex Hfx. split.
  - unfold main. change (filter (fun _ : string => true) tx_cols) with tx_cols.
    rewrite Hl. cbn [bind]. unfold prepare. rewrite Hc. cbn [bind].
    unfold convert. rewrite Hex, Hfx. reflexivity.
  - unfold load_parquet in Hfx.
    destruct (read_parquet (fx_io w) (FX w) None) as [df|e1]; [discriminate|].
    destruct (duckdb_fallback (fx_io w) (FX w) None) as [df|cause]; [discriminate|].
    injection Hfx as <-. split; [reflexivity|]. now exists cause.
Qed.

Lemma main_aborts_on_unreadable_rates_witness :
  main sample_world_broken_rates
  = Raise (RuntimeError
             "Cannot read /srv/eda/data/historical_currency_exchange.parquet: not a parquet file")
  /\ exn_class (RuntimeError
       "Cannot read /srv/eda/data/historical_currency_exchange.parquet: not a parquet file")
     = "RuntimeError" /\
  exists cause,
    exn_str (RuntimeError
       "Cannot read /srv/eda/data/historical_currency_exchange.parquet: not a parquet file")
    = cannot_read (FX sample_world_broken_rates) cause.
Proof.
  apply (main_aborts_on_unreadable_rates sample_world_broken_rates sample_tx sample_cleaned);
    vm_compute; reflexivity.
Defined.

(** X8. If neither reader can read the transaction file the run stops there, with
    a RuntimeError that names the file and the cause the fallback gave; the
    rate file is not looked at. *)
Theorem main_aborts_on_unreadable_transactions w e1 cause :
  read_parquet (tx_io w) (TX w) (Some tx_cols) = Raise e1 ->
  duckdb_fallback (tx_io w) (TX w) (Some tx_cols) = Raise cause ->
  main w
  = Raise (RuntimeError ("Cannot read " ++ path_str (TX w) ++ ": " ++ exn_str cause)) /\
  path_str (TX w)
  = ((path_str (root w) ++ "/data") ++ "/transaction_fraud_data.parquet")%string /\
  forall exists' io' today',
    main (mkWorld (root w) (tx_io w) exists' io' today') = main w.
Proof.
  intros H1 H2.
  assert (forall w', root w' = root w -> tx_io w' = tx_io w ->
            main w' = Raise (RuntimeError (cannot_read (TX w) cause))) as Hmain.
  { intros w' Hr Hio. unfold main.
    change (filter (fun _ : string => true) tx_cols) with tx_cols.
    assert (TX w' = TX w) as -> by (unfold TX, DATA_DIR; now rewrite Hr).
    rewrite Hio. unfold load_parquet. rewrite H1, H2. reflexivity. }
  split; [apply Hmain; reflexivity|]. split; [reflexivity|].
  intros ex io' td. rewrite (Hmain w eq_refl eq_refl). apply Hmain; reflexivity.
Qed.

Lemma main_aborts_on_unreadable_transactions_witness :
  main sample_world_broken_tx
  = Raise (RuntimeError ("Cannot read " ++ path_str (TX sample_world_broken_tx) ++ ": "
                         ++ exn_str (mkExn "IOException" "not a parquet file"))) /\
  path_str (TX sample_world_broken_tx)
  = ((path_str (root sample_world_broken_tx) ++ "/data")
     ++ "/transaction_fraud_data.parquet")%string /\
  forall exists' io' today',
    main (mkWorld (root sample_world_broken_tx) (tx_io sample_world_broken_tx)
            exists' io' today')
    = main sample_world_broken_tx.
Proof.
  apply (main_aborts_on_unreadable_transactions sample_world_broken_tx
           (mkExn "ArrowInvalid" "bad magic")); reflexivity.
Defined.

(** ** How many rows the join makes *)

Lemma length_merge_left tx fxl :
  List.length (rows (merge_left tx fxl)) = list_sum (map (copies fxl) (rows tx)).
Proof.
  unfold merge_left. cbn [rows]. rewrite length_flat_map. f_equal.
  apply map_ext. intros r. unfold copies, matching_rates. rewrite length_map.
  destruct (filter (key_eqb r) fxl) as [|l ls]; [reflexivity|].
  rewrite length_map. cbn [List.length]. now destruct (List.length ls).
Qed.

Lemma list_sum_ge_length (f : Row -> nat) l :
  (forall r, 1 <= f r) -> List.length l <= list_sum (map f l).
Proof.
  intros H. unfold list_sum. induction l as [|r l IH]; cbn; [lia|]. specialize (H r). lia.
Qed.

Lemma list_sum_ones (f : Row -> nat) l :
  (forall r, In r l -> f r = 1) -> list_sum (map f l) = List.length l.
Proof.
  unfold list_sum. induction l as [|r l IH]; intros H; cbn; [reflexivity|].
  rewrite (H r) by now left. rewrite IH; [reflexivity|].
  intros r' Hin. apply H. now right.
Qed.

(** X9. With the rate table joined in, the number of rows of the prepared table
    is the sum, over the kept rows, of the number of rates the long table
    holds for the date and currency of the row, counting a row without a rate
    once: the left join drops no row, and a row with several rates is
    repeated. *)
Theorem joined_row_count w fx tx0 out :
  fx_exists w = true ->
  load_parquet (fx_io w) (FX w) None = Ok fx ->
  has_column "date" (fx_columns fx) = true ->
  prepare w tx0 = Ok out ->
  total out
  = list_sum (map (fun r => copies (long_table fx) (set_date (date_key r) r))
                  (filter kept (rows tx0))) /\
  List.length (filter kept (rows tx0)) <= total out.
Proof.
  intros Hex Hload Hdate Hprep.
  apply prepare_ok in Hprep as (tx1 & Hc & Hv).
  destruct (convert_dates w fx tx1 out Hex Hload Hdate Hv) as [dates Hd].
  rewrite (convert_joined w fx dates tx1 Hex Hload Hdate Hd) in Hv. injection Hv as <-.
  apply clean_ok in Hc as [R1 _].
  assert (total (assign set_amount_usd amount_usd_col
                   (map usd_amount (rows (merge_left tx1 (long_table fx))))
                   (merge_left tx1 (long_table fx)))
          = list_sum (map (fun r => copies (long_table fx) (set_date (date_key r) r))
                          (filter kept (rows tx0)))) as Htotal.
  { unfold total. rewrite rows_assign, length_map, length_merge_left, R1, map_map.
    reflexivity. }
  split; [exact Htotal|].
  eapply Nat.le_trans; [|apply Nat.eq_le_incl; symmetry; exact Htotal].
  apply list_sum_ge_length. intros r. unfold copies. apply Nat.le_max_l.
Qed.

Lemma joined_row_count_witness :
  total sample_prepared_twice
  = list_sum (map (fun r => copies (long_table sample_fx_twice) (set_date (date_key r) r))
                  (filter kept (rows sample_tx))) /\
  List.length (filter kept (rows sample_tx)) <= total sample_prepared_twice.
Proof.
  apply (joined_row_count sample_world_twice sample_fx_twice sample_tx sample_prepared_twice);
    vm_compute; reflexivity.
Defined.

(** A rate table that holds a day twice repeats the rows of that day: three
    kept rows, of which the one in EUR finds two rates, make four rows. *)
Example repeated_day_repeats_rows :
  map (fun r => (customer_id r, amount_usd r)) (rows sample_prepared_twice)
  = [ (Some "c1", 100); (Some "c2", 50 / rate_09); (Some "c2", 25); (Some "c3", nan) ]%float.
Proof. vm_compute. reflexivity. Qed.

(** ** When the join is one to one *)

Lemma filter_at_most_one {A K : Type} (key : A -> K) (p : A -> bool) (l : list A) :
  NoDup (map key l) ->
  (forall x y, p x = true -> p y = true -> key x = key y) ->
  List.length (filter p l) <= 1.
Proof.
  intros Hnd Hp. induction l as [|x l IH]; cbn; [lia|].
  inversion Hnd as [|? ? Hx Hl]; subst.
  destruct (p x) eqn:Hpx; [|now apply IH].
  destruct (filter p l) as [|y ys] eqn:E; [cbn; lia|]. exfalso.
  assert (In y (filter p l)) as Hy by (rewrite E; now left).
  apply filter_In in Hy as [Hin Hpy]. apply Hx.
  rewrite (Hp x y Hpx Hpy). now apply in_map.
Qed.

Lemma map_snd_combine_seq {A : Type} (l : list A) s :
  map snd (combine (seq s (List.length l)) l) = l.
Proof.
  revert s. induction l as [|x l IH]; intros s; cbn; [reflexivity|]. now rewrite IH.
Qed.

Lemma NoDup_map_with {A B C : Type} (f : A -> B) (c : C) (l : list A) :
  NoDup (map f l) -> NoDup (map (fun x => (f x, c)) l).
Proof.
  induction l as [|x l IH]; cbn; intros H; [constructor|].
  inversion H as [|? ? Hx Hl]; subst. constructor; [|now apply IH].
  intros Hin. apply Hx. apply in_map_iff in Hin as (y & [= Hy] & Hin).
  rewrite <- Hy. now apply in_map.
Qed.

Lemma NoDup_long_keys (pairs : list (nat * string)) (table : list FxRow) :
  NoDup (map snd pairs) ->
  NoDup (map (fun row => dt_date (fx_date row)) table) ->
  NoDup (map (fun l => (dt_date (long_date l), long_currency l))
           (flat_map (fun ic => map (fun r => mkLong (fx_date r) (snd ic)
                                                (nth (fst ic) (fx_values r) nan)) table)
                     pairs)).
Proof.
  intros Hp Ht. induction pairs as [|[i c] pairs IH]; cbn; [constructor|].
  inversion Hp as [|? ? Hc Hp']; subst.
  rewrite map_app. apply NoDup_app.
  - rewrite map_map. cbn. now apply NoDup_map_with.
  - now apply IH.
  - intros [d c'] H1 H2.
    apply in_map_iff in H1 as (l1 & [= _ Hc1] & H1).
    apply in_map_iff in H1 as (r1 & <- & _). cbn in Hc1. subst c'.
    apply in_map_iff in H2 as (l2 & [= _ Hc2] & H2).
    apply in_flat_map in H2 as ([i' c'] & Hin & H2).
    apply in_map_iff in H2 as (r2 & <- & _). cbn in Hc2. subst c'.
    apply Hc. apply in_map_iff. now exists (i', c).
Qed.

Lemma long_table_at_most_one fx r :
  NoDup (value_vars fx) -> NoDup (fx_days fx) ->
  List.length (matching_rates (long_table fx) r) <= 1.
Proof.
  intros Hv Hd. unfold matching_rates. rewrite length_map.
  apply (filter_at_most_one (fun l => (long_date l, long_currency l))).
  - rewrite long_table_map, map_map. cbn [long_date long_currency]. unfold melt.
    apply NoDup_long_keys; [|exact Hd]. now rewrite map_snd_combine_seq.
  - intros x y Hx Hy. apply key_eqb_true in Hx as [Hx1 Hx2], Hy as [Hy1 Hy2].
    f_equal; congruence.
Qed.

Lemma merge_left_one_to_one tx fxl :
  (forall r, List.length (matching_rates fxl r) <= 1) ->
  rows (merge_left tx fxl)
  = map (fun r => set_per_usd (hd nan (matching_rates fxl r)) r) (rows tx).
Proof.
  intros H. unfold merge_left. cbn [rows].
  induction (rows tx) as [|r l IH]; [reflexivity|].
  cbn [flat_map]. rewrite IH. cbn [map]. specialize (H r). unfold matching_rates in *.
  destruct (filter (key_eqb r) fxl) as [|m [|m' ms]]; cbn in *; try reflexivity. lia.
Qed.

(** X10. If the rate table has pairwise distinct column names and holds every day
    once, the join is one to one: the prepared table has exactly the kept
    rows, in their order, each with the one rate of its day and currency (NaN
    if there is none), and the row count is the number of kept rows. *)
Theorem distinct_days_join_one_to_one w fx tx0 out :
  fx_exists w = true ->
  load_parquet (fx_io w) (FX w) None = Ok fx ->
  has_column "date" (fx_columns fx) = true ->
  NoDup (value_vars fx) ->
  NoDup (fx_days fx) ->
  prepare w tx0 = Ok out ->
  total out = List.length (filter kept (rows tx0)) /\
  map (fun r => (customer_id r, timestamp r, amount r, currency r)) (rows out)
  = map (fun r => (customer_id r, timestamp r, amount r, currency r))
        (filter kept (rows tx0)) /\
  map per_usd (rows out)
  = map (fun r => hd nan (matching_rates (long_table fx) (set_date (date_key r) r)))
        (filter kept (rows tx0)).
Proof.
  intros Hex Hload Hdate Hv Hd Hprep.
  apply prepare_ok in Hprep as (tx1 & Hc & Hconv).
  destruct (convert_dates w fx tx1 out Hex Hload Hdate Hconv) as [dates Hdt].
  rewrite (convert_joined w fx dates tx1 Hex Hload Hdate Hdt) in Hconv.
  assert (out = assign set_amount_usd amount_usd_col
                  (map usd_amount (rows (merge_left tx1 (long_table fx))))
                  (merge_left tx1 (long_table fx))) as -> by congruence.
  clear Hconv. apply clean_ok in Hc as [R1 _].
  assert (rows (assign set_amount_usd amount_usd_col
                  (map usd_amount (rows (merge_left tx1 (long_table fx))))
                  (merge_left tx1 (long_table fx)))
          = map (fun r => set_amount_usd
                            (usd_amount
                               (set_per_usd
                                  (hd nan (matching_rates (long_table fx)
                                             (set_date (date_key r) r)))
                                  (set_date (date_key r) r)))
                            (set_per_usd
                               (hd nan (matching_rates (long_table fx)
                                          (set_date (date_key r) r)))
                               (set_date (date_key r) r)))
                (filter kept (rows tx0))) as Hrows.
  { rewrite rows_assign, merge_left_one_to_one
      by (intros r; now apply long_table_at_most_one).
    rewrite R1, !map_map. reflexivity. }
  unfold total. rewrite Hrows, length_map, !map_map. repeat split.
Qed.

Lemma distinct_days_join_one_to_one_witness :
  total sample_prepared = List.length (filter kept (rows sample_tx)) /\
  map (fun r => (customer_id r, timestamp r, amount r, currency r)) (rows sample_prepared)
  = map (fun r => (customer_id r, timestamp r, amount r, currency r))
        (filter kept (rows sample_tx)) /\
  map per_usd (rows sample_prepared)
  = map (fun r => hd nan (matching_rates (long_table sample_fx) (set_date (date_key r) r)))
        (filter kept (rows sample_tx)).
Proof.
  apply (distinct_days_join_one_to_one sample_world sample_fx sample_tx sample_prepared);
    try (vm_compute; reflexivity).
  - repeat constructor; cbn; intuition discriminate.
  - repeat constructor; cbn; intuition.
Defined.

(** ** The rows of a prepared table, in every world *)

Lemma convert_cases w tx1 out :
  convert w tx1 = Ok out ->
  (fx_exists w = false \/
   (exists fx, fx_exists w = true /\ load_parquet (fx_io w) (FX w) None = Ok fx /\
               has_column "date" (fx_columns fx) = false)) \/
  (exists fx, fx_exists w = true /\ load_parquet (fx_io w) (FX w) None = Ok fx /\
              has_column "date" (fx_columns fx) = true).
Proof.
  unfold convert. destruct (fx_exists w); [|auto].
  destruct (load_parquet (fx_io w) (FX w) None) as [fx|e]; [|discriminate].
  cbn [bind]. destruct (has_column "date" (fx_columns fx)) eqn:E; intros _.
  - right. exists fx. auto.
  - left. right. exists fx. auto.
Qed.

Lemma prepare_cases w tx0 out :
  prepare w tx0 = Ok out ->
  (fx_exists w = false \/
   (exists fx, fx_exists w = true /\ load_parquet (fx_io w) (FX w) None = Ok fx /\
               has_column "date" (fx_columns fx) = false)) \/
  (exists fx, fx_exists w = true /\ load_parquet (fx_io w) (FX w) None = Ok fx /\
              has_column "date" (fx_columns fx) = true).
Proof.
  intros H. apply prepare_ok in H as (tx1 & _ & H). now apply convert_cases in H.
Qed.

(** Every row of a prepared table has its three required values, carries the
    day of its timestamp as date key, and has either its raw amount or its
    amount over its rate as converted amount, the former if it is in USD. *)
Lemma prepare_row_shape w tx0 out r :
  prepare w tx0 = Ok out -> In r (rows out) ->
  kept r = true /\ date r = date_key r /\
  (amount_usd r = amount r \/
   (is_usd r = false /\ amount_usd r = (amount r / per_usd r)%float)).
Proof.
  intros Hprep Hin.
  destruct (prepare_cases w tx0 out Hprep) as [Hid|(fx & Hex & Hload & Hdate)].
  - rewrite (prepare_identity_rows w tx0 out Hid Hprep) in Hin.
    apply in_map_iff in Hin as (r0 & <- & Hin). apply filter_In in Hin as [_ Hk].
    split; [exact Hk|]. split; [reflexivity|]. now left.
  - destruct (proj1 (prepare_joined_rows w fx tx0 out Hex Hload Hdate Hprep r) Hin)
      as (r0 & R & _ & Hk & _ & Hr).
    subst r. split; [exact Hk|]. split; [reflexivity|].
    cbn [amount_usd amount per_usd set_amount_usd set_per_usd set_date].
    unfold usd_amount.
    change (is_usd (set_amount_usd
                      (if is_usd (set_per_usd R (set_date (date_key r0) r0))
                       then amount (set_per_usd R (set_date (date_key r0) r0))
                       else (amount (set_per_usd R (set_date (date_key r0) r0))
                             / per_usd (set_per_usd R (set_date (date_key r0) r0)))%float)
                      (set_per_usd R (set_date (date_key r0) r0))))
      with (is_usd (set_per_usd R (set_date (date_key r0) r0))).
    destruct (is_usd (set_per_usd R (set_date (date_key r0) r0))); [now left|].
    right. split; reflexivity.
Qed.

Lemma main_row_shape w out r :
  main w = Ok out -> In r (rows (table out)) ->
  kept r = true /\ date r = date_key r /\
  (amount_usd r = amount r \/
   (is_usd r = false /\ amount_usd r = (amount r / per_usd r)%float)).
Proof.
  intros Hmain Hin. apply main_ok in Hmain as (tx0 & tx & _ & Hprep & Ht & _).
  rewrite Ht in Hin. destruct (has_column "is_fraud" (columns tx)).
  - rewrite rows_with_hour in Hin. apply in_map_iff in Hin as (r' & <- & Hin).
    exact (prepare_row_shape w tx0 tx r' Hprep Hin).
  - exact (prepare_row_shape w tx0 tx r Hprep Hin).
Qed.

(** ** The histogram of amounts (line 93) *)

Lemma filter_all {A : Type} (p : A -> bool) (l : list A) :
  (forall x, In x l -> p x = true) -> filter p l = l.
Proof.
  induction l as [|x l IH]; intros H; cbn; [reflexivity|].
  rewrite (H x) by now left. rewrite IH; [reflexivity|]. intros y Hy. apply H. now right.
Qed.

Lemma length_filter_map {A B : Type} (f : A -> B) (p : B -> bool) (l : list A) :
  List.length (filter p (map f l)) = List.length (filter (fun x => p (f x)) l).
Proof.
  induction l as [|x l IH]; cbn; [reflexivity|]. destruct (p (f x)); cbn; now rewrite IH.
Qed.

(** X12. The histogram is drawn from the converted amounts that are not NaN: the
    rows left out are exactly those with a NaN converted amount, a row in USD
    is never left out, and when no rate table is joined every row is drawn,
    with its raw amount. *)
Theorem histogram_leaves_out_only_missing w out :
  main w = Ok out ->
  Forall (fun x => is_nan x = false) (amount_usd_hist out) /\
  List.length (amount_usd_hist out)
  + List.length (filter (fun r => is_nan (amount_usd r)) (rows (table out)))
  = List.length (rows (table out)) /\
  (forall r, In r (rows (table out)) -> is_usd r = true ->
     In (amount r) (amount_usd_hist out)) /\
  (fx_exists w = false \/
   (exists fx, fx_exists w = true /\ load_parquet (fx_io w) (FX w) None = Ok fx /\
               has_column "date" (fx_columns fx) = false) ->
   amount_usd_hist out = map amount (rows (table out))).
Proof.
  intros Hmain. destruct (main_aggregates w out Hmain) as (_ & Hh & _).
  pose proof (fun r => main_row_shape w out r Hmain) as Hshape.
  rewrite Hh. unfold hist_values. split; [|split; [|split]].
  - apply Forall_forall. intros x Hx. apply filter_In in Hx as [_ Hx].
    now destruct (is_nan x).
  - rewrite length_filter_map.
    rewrite (filter_ext (fun r => is_nan (amount_usd r))
               (fun r => negb (negb (is_nan (amount_usd r)))))
      by (intros r; now rewrite negb_involutive).
    apply (filter_length (fun r => negb (is_nan (amount_usd r)))).
  - intros r Hin Hu. destruct (Hshape r Hin) as (Hk & _ & Ha).
    apply filter_In. apply kept_iff in Hk as (_ & Hn & _).
    destruct Ha as [Ha|[Hf _]]; [|congruence]. split.
    + rewrite <- Ha. now apply in_map.
    + now rewrite Hn.
  - intros Hid.
    apply main_ok in Hmain as (tx0 & tx & _ & Hprep & Ht & _).
    pose proof (prepare_identity_rows w tx0 tx Hid Hprep) as Hrows.
    assert (map amount_usd (rows (table out)) = map amount (rows (table out))) as ->.
    { rewrite Ht. destruct (has_column "is_fraud" (columns tx));
        rewrite ?rows_with_hour, ?map_map, Hrows, !map_map; reflexivity. }
    apply filter_all. intros x Hx. apply in_map_iff in Hx as (r & <- & Hr).
    destruct (Hshape r Hr) as (Hk & _). apply kept_iff in Hk as (_ & -> & _). reflexivity.
Qed.

Lemma histogram_leaves_out_only_missing_witness :
  Forall (fun x => is_nan x = false) (amount_usd_hist sample_output) /\
  List.length (amount_usd_hist sample_output)
  + List.length (filter (fun r => is_nan (amount_usd r)) (rows (table sample_output)))
  = List.length (rows (table sample_output)) /\
  (forall r, In r (rows (table sample_output)) -> is_usd r = true ->
     In (amount r) (amount_usd_hist sample_output)) /\
  (fx_exists sample_world = false \/
   (exists fx, fx_exists sample_world = true /\
               load_parquet (fx_io sample_world) (FX sample_world) None = Ok fx /\
               has_column "date" (fx_columns fx) = false) ->
   amount_usd_hist sample_output = map amount (rows (table sample_output))).
Proof.
  apply (histogram_leaves_out_only_missing sample_world sample_output).
  vm_compute. reflexivity.
Defined.

(** In the sample world the row without a rate is left out of the histogram;
    without the rate file all three rows are drawn. *)
Example sample_histograms :
  amount_usd_hist sample_output = [100; 50 / rate_09]%float /\
  amount_usd_hist sample_output_no_rates = [100; 50; 70]%float.
Proof. split; vm_compute; reflexivity. Qed.

(** ** The date key and the hour (lines 61 and 98) *)

Lemma instant_in_its_hour ns :
  let d := (ns / ns_per_day)%Z in
  let h := ((ns / ns_per_hour) mod 24)%Z in
  (0 <= h <= 23 /\ d * ns_per_day <= ns < (d + 1) * ns_per_day /\
   d * ns_per_day + h * ns_per_hour <= ns < d * ns_per_day + (h + 1) * ns_per_hour)%Z.
Proof.
  cbv zeta. unfold ns_per_day.
  assert (0 < ns_per_hour)%Z as Hpos by reflexivity.
  rewrite (Z.mul_comm 24 ns_per_hour), <- Z.div_div by lia.
  generalize dependent ns_per_hour. intros H Hpos.
  pose proof (Z.div_mod ns H ltac:(lia)) as E1.
  pose proof (Z.mod_pos_bound ns H Hpos) as B1.
  pose proof (Z.div_mod (ns / H) 24 ltac:(lia)) as E2.
  pose proof (Z.mod_pos_bound (ns / H) 24 ltac:(lia)) as B2.
  nia.
Qed.

(** X13. Every row of the final table carries as date key the UTC day its
    timestamp falls in, and, when the hour column is added, the hour of that
    day it falls in: the instant lies in hour [h] of day [d]. Rows with the
    same date key are therefore less than a day apart. *)
Theorem date_key_and_hour_locate_the_instant w out r :
  main w = Ok out ->
  In r (rows (table out)) ->
  exists ns d,
    timestamp r = Instant ns /\ date r = Some d /\
    (d * ns_per_day <= ns < (d + 1) * ns_per_day)%Z /\
    (has_column "is_fraud" (columns (table out)) = true ->
     exists h, hour r = Some h /\ (0 <= h <= 23)%Z /\
       (d * ns_per_day + h * ns_per_hour <= ns
        < d * ns_per_day + (h + 1) * ns_per_hour)%Z).
Proof.
  intros Hmain Hin.
  destruct (main_row_shape w out r Hmain Hin) as (Hk & Hd & _).
  apply kept_iff in Hk as ((ns & Hns) & _).
  destruct (instant_in_its_hour ns) as (Hh & Hday & Hhour).
  exists ns, (ns / ns_per_day)%Z. split; [exact Hns|].
  split; [rewrite Hd; unfold date_key; now rewrite Hns|]. split; [exact Hday|].
  intros Hcol. exists ((ns / ns_per_hour) mod 24)%Z. split; [|split; assumption].
  apply main_ok in Hmain as (tx0 & tx & _ & _ & Ht & _).
  assert (has_column "is_fraud" (columns tx) = true) as Hcol'.
  { rewrite Ht in Hcol. destruct (has_column "is_fraud" (columns tx)) eqn:E; [reflexivity|].
    congruence. }
  rewrite Ht, Hcol', rows_with_hour in Hin.
  apply in_map_iff in Hin as (r' & <- & _). cbn in Hns |- *. now rewrite Hns.
Qed.

Lemma date_key_and_hour_locate_the_instant_witness :
  exists ns d,
    timestamp (set_hour (Some 3%Z)
                 (set_amount_usd (50 / rate_09)%float
                    (set_per_usd rate_09
                       (set_date (Some 19000%Z)
                          (sample_row "c2" (at_hour 19000 3) 50 (Some "EUR") true
                             (merchants 4))))))
    = Instant ns /\
    date (set_hour (Some 3%Z)
            (set_amount_usd (50 / rate_09)%float
               (set_per_usd rate_09
                  (set_date (Some 19000%Z)
                     (sample_row "c2" (at_hour 19000 3) 50 (Some "EUR") true
                        (merchants 4))))))
    = Some d /\
    (d * ns_per_day <= ns < (d + 1) * ns_per_day)%Z /\
    (has_column "is_fraud" (columns (table sample_output)) = true ->
     exists h,
       hour (set_hour (Some 3%Z)
               (set_amount_usd (50 / rate_09)%float
                  (set_per_usd rate_09
                     (set_date (Some 19000%Z)
                        (sample_row "c2" (at_hour 19000 3) 50 (Some "EUR") true
                           (merchants 4))))))
       = Some h /\ (0 <= h <= 23)%Z /\
       (d * ns_per_day + h * ns_per_hour <= ns
        < d * ns_per_day + (h + 1) * ns_per_hour)%Z).
Proof.
  apply (date_key_and_hour_locate_the_instant sample_world sample_output).
  - vm_compute. reflexivity.
  - vm_compute. right. left. reflexivity.
Defined.

(** ** The head of the report (lines 114-122) *)

Lemma convert_adds_amount_usd w tx1 out :
  convert w tx1 = Ok out -> has_column amount_usd_col (columns out) = true.
Proof.
  unfold convert. intros H.
  destruct (fx_exists w).
  - destruct (load_parquet (fx_io w) (FX w) None) as [fx|e]; [|discriminate].
    cbn [bind] in H. destruct (has_column "date" (fx_columns fx)).
    + destruct (to_datetime (map long_date (melt fx))) as [dates|e]; [|discriminate].
      cbn [bind] in H. injection H as <-. rewrite columns_assign. apply orb_true_r.
    + injection H as <-. rewrite columns_assign. apply orb_true_r.
  - injection H as <-. rewrite columns_assign. apply orb_true_r.
Qed.

(** X14. The report of every run opens with the dated header, a blank line and
    the number of rows of the final table, and it always has the line that
    names the column of converted amounts: the guard of line 121 never
    fails, because every branch of the conversion adds that column. *)
Theorem report_opens_with_total_and_names_amount_column w out :
  main w = Ok out ->
  has_column "amount_usd" (columns (table out)) = true /\
  exists rest,
    report out
    = Header (today w) :: Blank :: TotalTransactions (List.length (rows (table out)))
      :: rest /\
    In (AmountNormalizedColumn "amount_usd") rest.
Proof.
  intros Hmain. destruct (main_aggregates w out Hmain) as (Hrep & _ & _).
  assert (has_column "amount_usd" (columns (table out)) = true) as Hcol.
  { apply main_ok in Hmain as (tx0 & tx & _ & Hprep & Ht & _).
    apply prepare_ok in Hprep as (tx1 & _ & Hconv).
    apply convert_adds_amount_usd in Hconv. rewrite Ht.
    destruct (has_column "is_fraud" (columns tx)); [|exact Hconv].
    rewrite with_hour_column by discriminate. exact Hconv. }
  split; [exact Hcol|]. rewrite Hrep. unfold lines. cbn [app]. eexists. split; [reflexivity|].
  rewrite !in_app_iff. right. left. unfold amount_lines, amount_usd_col. rewrite Hcol.
  now left.
Qed.

Lemma report_opens_with_total_and_names_amount_column_witness :
  has_column "amount_usd" (columns (table sample_output_no_rates)) = true /\
  exists rest,
    report sample_output_no_rates
    = Header (today sample_world_no_rates) :: Blank
      :: TotalTransactions (List.length (rows (table sample_output_no_rates)))
      :: rest /\
    In (AmountNormalizedColumn "amount_usd") rest.
Proof.
  apply (report_opens_with_total_and_names_amount_column sample_world_no_rates
           sample_output_no_rates).
  vm_compute. reflexivity.
Defined.

(** ** The total and the kept rows *)

(** X11. Whatever the rate table, the total a run reports is at least the number
    of loaded rows that have a timestamp that converts, an amount and a
    currency; it is that number when no rate table is joined. *)
Theorem total_is_at_least_the_kept_rows w tx0 out :
  load_parquet (tx_io w) (TX w) (Some tx_cols) = Ok tx0 ->
  main w = Ok out ->
  In (TotalTransactions (List.length (rows (table out)))) (report out) /\
  List.length (filter kept (rows tx0)) <= List.length (rows (table out)) /\
  (fx_exists w = false \/
   (exists fx, fx_exists w = true /\ load_parquet (fx_io w) (FX w) None = Ok fx /\
               has_column "date" (fx_columns fx) = false) ->
   List.length (rows (table out)) = List.length (filter kept (rows tx0))).
Proof.
  intros Hload Hmain.
  destruct (main_aggregates w out Hmain) as (Hrep & _ & _).
  split; [rewrite Hrep; unfold lines; cbn; auto|].
  apply main_ok in Hmain as (tx0' & tx & Hload' & Hprep & Ht & _).
  rewrite Hload in Hload'. injection Hload' as <-.
  assert (List.length (rows (table out)) = List.length (rows tx)) as ->.
  { rewrite Ht. destruct (has_column "is_fraud" (columns tx)); [|reflexivity].
    rewrite rows_with_hour. apply length_map. }
  split.
  - destruct (prepare_cases w tx0 tx Hprep) as [Hid|(fx & Hex & Hl & Hd)].
    + rewrite (prepare_identity_rows w tx0 tx Hid Hprep), length_map. lia.
    + pose proof (prepare_ok w tx0 tx Hprep) as (tx1 & Hc & Hv).
      destruct (convert_dates w fx tx1 tx Hex Hl Hd Hv) as [dates Hdt].
      rewrite (convert_joined w fx dates tx1 Hex Hl Hd Hdt) in Hv.
      assert (tx = assign set_amount_usd amount_usd_col
                     (map usd_amount (rows (merge_left tx1 (long_table fx))))
                     (merge_left tx1 (long_table fx))) as -> by congruence.
      apply clean_ok in Hc as [R1 _].
      rewrite rows_assign, length_map, length_merge_left.
      replace (List.length (filter kept (rows tx0))) with (List.length (rows tx1))
        by (rewrite R1; apply length_map).
      apply list_sum_ge_length. intros r. apply Nat.le_max_l.
  - intros Hid. rewrite (prepare_identity_rows w tx0 tx Hid Hprep). apply length_map.
Qed.

Lemma total_is_at_least_the_kept_rows_witness :
  In (TotalTransactions (List.length (rows (table sample_output)))) (report sample_output) /\
  List.length (filter kept (rows sample_tx)) <= List.length (rows (table sample_output)) /\
  (fx_exists sample_world = false \/
   (exists fx, fx_exists sample_world = true /\
               load_parquet (fx_io sample_world) (FX sample_world) None = Ok fx /\
               has_column "date" (fx_columns fx) = false) ->
   List.length (rows (table sample_output)) = List.length (filter kept (rows sample_tx))).
Proof.
  apply (total_is_at_least_the_kept_rows sample_world sample_tx sample_output);
    vm_compute; reflexivity.
Defined.

(** ** The fraud rate of nothing (lines 82-84) *)




(** The report of a run over a table without rows. *)
Example empty_table_report :
  report sample_output_empty
  = [Header "2025-01-01"; Blank; TotalTransactions 0;
     FraudulentTransactions (Some 0); FraudRate nan;
     AmountNormalizedColumn "amount_usd";
     Blank; Top5Heading;
     Blank; StructHeading; CustomersStrictlyAbove 0].
Proof. vm_compute. reflexivity. Qed.

(** ** The top-5 section (lines 125-130) *)

Section SortedInsertion.
Context {A : Type} (leb : A -> A -> bool) (R : A -> A -> Prop).
Hypothesis leb_R : forall a b, leb a b = true -> R a b.
Hypothesis leb_total : forall a b, leb a b = false -> R b a.
Hypothesis R_trans : forall a b c, R a b -> R b c -> R a c.



End SortedInsertion.

Lemma NoDup_map_insert_by {A B : Type} (f : A -> B) (leb : A -> A -> bool) x l :
  ~ In (f x) (map f l) -> NoDup (map f l) -> NoDup (map f (insert_by leb x l)).
Proof.
  induction l as [|y l IH]; cbn; intros Hx Hl.
  - constructor; [intros []|constructor].
  - destruct (leb x y); cbn; [constructor; assumption|].
    inversion Hl as [|? ? Hy Hl']; subst. constructor.
    + intros Hin. apply in_map_iff in Hin as (z & Hz & Hin).
      apply in_insert_by in Hin as [->|Hin].
      * apply Hx. left. now symmetry.
      * apply Hy. rewrite <- Hz. now apply in_map.
    + apply IH; [|exact Hl']. intros Hin. apply Hx. now right.
Qed.

Lemma NoDup_map_sort_by {A B : Type} (f : A -> B) (leb : A -> A -> bool) l :
  NoDup (map f l) -> NoDup (map f (sort_by leb l)).
Proof.
  unfold sort_by. induction l as [|x l IH]; cbn; intros H; [constructor|].
  inversion H as [|? ? Hx Hl]; subst. apply NoDup_map_insert_by; [|now apply IH].
  intros Hin. apply Hx. apply in_map_iff in Hin as (z & Hz & Hin).
  rewrite <- Hz. apply in_map. apply (in_sort_by leb). exact Hin.
Qed.

Lemma in_value_counts xs c v :
  In (c, v) (value_counts xs) <->
  In (Some c) xs /\ v = List.length (filter (String.eqb c) (present xs)).
Proof.
  unfold value_counts. rewrite in_sort_by, in_map_iff. split.
  - intros (k & [= <- <-] & Hk).
    apply (in_uniques String.eqb String.eqb_eq), in_present in Hk. auto.
  - intros [Hc ->]. exists c. split; [reflexivity|].
    now apply (in_uniques String.eqb String.eqb_eq), in_present.
Qed.

Lemma NoDup_value_counts xs : NoDup (map fst (value_counts xs)).
Proof.
  unfold value_counts. apply NoDup_map_sort_by. rewrite map_map. cbn [fst].
  rewrite map_id. apply (NoDup_uniques String.eqb String.eqb_eq).
Qed.


Lemma count_fraud_rows tx c :
  List.length (filter (String.eqb c)
                      (present (map country
                                    (filter (fun r => opt_eqb Bool.eqb (is_fraud r) (Some true))
                                            (rows tx)))))
  = List.length (fraud_rows_of tx c).
Proof.
  unfold fraud_rows_of. induction (rows tx) as [|r l IH]; [reflexivity|].
  cbn [filter]. destruct (opt_eqb Bool.eqb (is_fraud r) (Some true)); cbn [andb]; [|exact IH].
  cbn [map present flat_map]. destruct (country r) as [k|]; cbn [app opt_eqb filter].
  - destruct (String.eqb_spec c k) as [->|Hne].
    + rewrite String.eqb_refl. cbn [List.length]. f_equal. exact IH.
    + replace (String.eqb k c) with false; [exact IH|].
      symmetry. apply String.eqb_neq. congruence.
  - exact IH.
Qed.

Lemma in_firstn {A : Type} n (l : list A) x : In x (firstn n l) -> In x l.
Proof. intros H. rewrite <- (firstn_skipn n l). apply in_or_app. now left. Qed.

Lemma NoDup_firstn {A : Type} n (l : list A) : NoDup l -> NoDup (firstn n l).
Proof.
  intros H. rewrite <- (firstn_skipn n l) in H. now apply NoDup_app_remove_r in H.
Qed.


(** X16. The top-5 section lists at most five countries, each once and with the
    number of fraudulent rows of that country, which is at least one. *)
Theorem top5_counts_fraudulent_rows tx :
  has_column "is_fraud" (columns tx) = true ->
  has_column "country" (columns tx) = true ->
  top5_lines tx
  = Blank :: Top5Heading :: map (fun cv => CountryCount (fst cv) (snd cv)) (top5 tx) /\
  List.length (top5 tx) <= 5 /\
  NoDup (map fst (top5 tx)) /\
  forall c v, In (c, v) (top5 tx) ->
    v = List.length (fraud_rows_of tx c) /\ 1 <= v.
Proof.
  intros Hf Hc. split; [unfold top5_lines; rewrite Hf, Hc; reflexivity|].
  unfold top5. split; [apply firstn_le_length|]. split.
  - rewrite <- firstn_map. apply NoDup_firstn, NoDup_value_counts.
  - intros c v Hin. apply in_firstn, in_value_counts in Hin as [Hin ->].
    rewrite count_fraud_rows. split; [reflexivity|].
    rewrite <- count_fraud_rows.
    apply in_present in Hin.
    assert (In c (filter (String.eqb c)
                    (present (map country
                                (filter (fun r => opt_eqb Bool.eqb (is_fraud r) (Some true))
                                        (rows tx)))))) as H
      by (apply filter_In; split; [exact Hin|apply String.eqb_refl]).
    destruct (filter (String.eqb c) _); [destruct H|cbn; lia].
Qed.

Lemma top5_counts_fraudulent_rows_witness :
  top5_lines (table sample_output)
  = Blank :: Top5Heading
    :: map (fun cv => CountryCount (fst cv) (snd cv)) (top5 (table sample_output)) /\
  List.length (top5 (table sample_output)) <= 5 /\
  NoDup (map fst (top5 (table sample_output))) /\
  forall c v, In (c, v) (top5 (table sample_output)) ->
    v = List.length (fraud_rows_of (table sample_output) c) /\ 1 <= v.
Proof.
  apply (top5_counts_fraudulent_rows (table sample_output)); vm_compute; reflexivity.
Defined.



(** ** When the customer metric fails (lines 133-148) *)

Lemma numeric_raise vs e :
  numeric vs = Raise e -> exists repr, e = TypeError repr /\ In (PObj repr) vs.
Proof.
  induction vs as [|v vs IH]; cbn; [discriminate|].
  destruct v as [|x|repr].
  - intros H. destruct (IH H) as (repr & -> & Hin). eauto.
  - destruct (numeric vs) as [xs|e']; cbn; [discriminate|].
    intros [= <-]. destruct (IH eq_refl) as (repr & -> & Hin). eauto.
  - intros [= <-]. eauto.
Qed.

Lemma numeric_raises vs repr :
  In (PObj repr) vs -> exists repr', numeric vs = Raise (TypeError repr').
Proof.
  induction vs as [|v vs IH]; intros Hin; [destruct Hin|].
  destruct Hin as [->|Hin]; [cbn; eauto|].
  destruct (IH Hin) as [repr' H]. destruct v as [|x|r]; cbn; rewrite ?H; cbn; eauto.
Qed.

Lemma group_medians_raise groups e :
  group_medians groups = Raise e ->
  exists c vs repr, In (c, vs) groups /\ In (PObj repr) vs /\ e = TypeError repr.
Proof.
  induction groups as [|[k vs] groups IH]; cbn; [discriminate|].
  destruct (numeric vs) as [xs|e'] eqn:Hn; cbn [bind].
  - destruct (group_medians groups) as [rest|e']; cbn [bind]; [discriminate|].
    intros [= <-]. destruct (IH eq_refl) as (c & vs' & repr & Hin & Hv & ->).
    exists c, vs', repr. auto.
  - intros [= <-]. apply numeric_raise in Hn as (repr & -> & Hin).
    exists k, vs, repr. auto.
Qed.

Lemma group_medians_raises groups c vs repr :
  In (c, vs) groups -> In (PObj repr) vs ->
  exists repr', group_medians groups = Raise (TypeError repr').
Proof.
  induction groups as [|[k vs'] groups IH]; intros Hin Hv; [destruct Hin|].
  cbn. destruct Hin as [[= -> ->]|Hin].
  - destruct (numeric_raises vs repr Hv) as [repr' ->]. cbn. eauto.
  - destruct (numeric vs') as [xs|e] eqn:Hn; cbn.
    + destruct (IH Hin Hv) as [repr' ->]. cbn. eauto.
    + apply numeric_raise in Hn as (r & -> & _). eauto.
Qed.

Lemma in_customer_values tx c v :
  In v (customer_values tx c) <->
  pyval_isna v = false /\
  exists r, In r (rows tx) /\ customer_id r = Some c /\
            unique_merchants (last_hour_activity r) = v.
Proof.
  unfold customer_values. rewrite filter_In, in_map_iff. split.
  - intros [(r & <- & Hr) Hv]. apply filter_In in Hr as [Hr Hc].
    apply (opt_eqb_eq String.eqb String.eqb_eq) in Hc.
    split; [now destruct (pyval_isna _)|]. eauto.
  - intros [Hv (r & Hr & Hc & <-)]. split; [|now rewrite Hv].
    exists r. split; [reflexivity|]. apply filter_In. split; [exact Hr|].
    now apply (opt_eqb_eq String.eqb String.eqb_eq).
Qed.

(** X19. The customer metric fails in exactly two cases: the table has no
    [customer_id] column (a KeyError), or some row with a customer id carries
    under [unique_merchants] a value that is no number (a TypeError). A row
    without a customer id, a missing value, or a cell that is no dict never
    makes it fail. In these two cases the report gets the two lines of the
    failure note in place of the count. *)
Theorem count_strict_fails_iff tx :
  ((exists e, count_strict tx = Raise e) <->
   has_column "customer_id" (columns tx) = false \/
   exists r c repr,
     In r (rows tx) /\ customer_id r = Some c /\
     unique_merchants (last_hour_activity r) = PObj repr) /\
  (forall e, count_strict tx = Raise e ->
     (exn_class e = "KeyError" \/ exn_class e = "TypeError") /\
     (has_column "last_hour_activity" (columns tx) = true ->
      activity_lines tx = [Blank; ParseFailureHeading; CouldNotParse (exn_str e)])).
Proof.
  assert (forall e, count_strict tx = Raise e -> customer_medians tx = Raise e) as Hmed.
  { unfold count_strict. intros e. destruct (customer_medians tx); cbn; [discriminate|].
    now intros [= <-]. }
  split; [split|].
  - intros [e H]. apply Hmed in H. unfold customer_medians in H.
    destruct (has_column "customer_id" (columns tx)); [|now left]. right.
    apply group_medians_raise in H as (c & vs & repr & Hg & Hv & _).
    apply (in_groupby String.eqb String.leb String.eqb_eq) in Hg as [_ ->].
    rewrite combine_fst_snd, tmp_rows_of_customer in Hv.
    apply in_customer_values in Hv as [_ (r & Hr & Hc & Hu)]. eauto 6.
  - intros [Hc|(r & c & repr & Hr & Hc & Hu)]; unfold count_strict, customer_medians.
    + rewrite Hc. cbn. eauto.
    + destruct (has_column "customer_id" (columns tx)); [|cbn; eauto].
      assert (In (PObj repr) (customer_values tx c)) as Hv
        by (apply in_customer_values; split; [reflexivity|eauto]).
      assert (In (c, customer_values tx c)
                (groupby String.eqb String.leb (map fst (tmp_rows tx))
                         (map snd (tmp_rows tx)))) as Hg.
      { apply (in_groupby String.eqb String.leb String.eqb_eq). split.
        - apply tmp_rows_has_customer. intros Hn. rewrite Hn in Hv. destruct Hv.
        - now rewrite combine_fst_snd, tmp_rows_of_customer. }
      destruct (group_medians_raises _ c (customer_values tx c) repr Hg Hv) as [repr' ->].
      cbn. eauto.
  - intros e H. split.
    + apply Hmed in H. unfold customer_medians in H.
      destruct (has_column "customer_id" (columns tx)).
      * apply group_medians_raise in H as (_ & _ & repr & _ & _ & ->). now right.
      * injection H as <-. now left.
    + intros Hcol. unfold activity_lines. now rewrite Hcol, H.
Qed.

(** A failed metric does not stop the run: the report ends with the note. *)
Example garbled_value_is_reported :
  option_map (fun o => skipn 9 (report o))
             (match main sample_world_garbled with Ok o => Some o | Raise _ => None end)
  = Some [Blank; ParseFailureHeading; CouldNotParse "a few"].
Proof. vm_compute. reflexivity. Qed.

(** ** The counts of value_counts add up *)

Lemma list_sum_insert_by {A : Type} (f : A -> nat) (leb : A -> A -> bool) x l :
  list_sum (map f (insert_by leb x l)) = f x + list_sum (map f l).
Proof.
  unfold list_sum. induction l as [|y l IH]; cbn; [reflexivity|].
  destruct (leb x y); cbn; [reflexivity|]. rewrite IH. lia.
Qed.

Lemma list_sum_sort_by {A : Type} (f : A -> nat) (leb : A -> A -> bool) l :
  list_sum (map f (sort_by leb l)) = list_sum (map f l).
Proof.
  unfold sort_by. induction l as [|x l IH]; [reflexivity|].
  cbn [fold_right]. rewrite list_sum_insert_by. cbn [map].
  change (list_sum (f x :: map f l)) with (f x + list_sum (map f l)). now rewrite IH.
Qed.

Lemma list_sum_without (g : string -> nat) (x : string) (u : list string) :
  NoDup u ->
  list_sum (map g u)
  = list_sum (map g (filter (fun y => negb (String.eqb x y)) u))
    + (if existsb (String.eqb x) u then g x else 0).
Proof.
  unfold list_sum. induction 1 as [|y u Hy Hu IH]; [reflexivity|].
  cbn [map fold_right filter existsb].
  destruct (String.eqb_spec x y) as [<-|Hne]; cbn [negb orb].
  - rewrite IH.
    replace (existsb (String.eqb x) u) with false; [lia|].
    symmetry. apply not_true_is_false. intros H. apply existsb_exists in H as (z & Hz & E).
    apply String.eqb_eq in E. subst z. contradiction.
  - cbn [map fold_right]. rewrite IH. lia.
Qed.

Lemma count_uniques (ys : list string) :
  list_sum (map (fun k => List.length (filter (String.eqb k) ys)) (uniques String.eqb ys))
  = List.length ys.
Proof.
  induction ys as [|x t IH]; [reflexivity|].
  cbn [uniques map]. change (list_sum (?a :: ?l)) with (a + list_sum l).
  cbn [filter]. rewrite String.eqb_refl. cbn [List.length].
  rewrite (map_ext_in _ (fun k => List.length (filter (String.eqb k) t))).
  - rewrite (list_sum_without (fun k => List.length (filter (String.eqb k) t)) x
               (uniques String.eqb t) (NoDup_uniques String.eqb String.eqb_eq t)) in IH.
    assert ((if existsb (String.eqb x) (uniques String.eqb t)
             then List.length (filter (String.eqb x) t) else 0)
            = List.length (filter (String.eqb x) t)) as E.
    { destruct (existsb (String.eqb x) (uniques String.eqb t)) eqn:Ex; [reflexivity|].
      destruct (filter (String.eqb x) t) as [|z zs] eqn:Ef; [reflexivity|]. exfalso.
      assert (In z (filter (String.eqb x) t)) as Hz by (rewrite Ef; now left).
      apply filter_In in Hz as [Hz Hxz]. apply String.eqb_eq in Hxz. subst z.
      apply not_true_iff_false in Ex. apply Ex. apply existsb_exists. exists x.
      split; [now apply (in_uniques String.eqb String.eqb_eq)|apply String.eqb_refl]. }
    rewrite E in IH. lia.
  - intros k Hk. apply filter_In in Hk as [_ Hk].
    destruct (String.eqb_spec k x) as [->|Hne]; [|reflexivity].
    rewrite String.eqb_refl in Hk. discriminate.
Qed.

Lemma list_sum_firstn_le n (l : list nat) : list_sum (firstn n l) <= list_sum l.
Proof.
  rewrite <- (firstn_skipn n l) at 2. rewrite list_sum_app. lia.
Qed.

Lemma length_present_le {A : Type} (l : list (option A)) :
  List.length (present l) <= List.length l.
Proof. unfold present. induction l as [|[a|] l IH]; cbn; lia. Qed.

(** X18. The counts of a [value_counts] add up to the number of values that are
    not missing: every present value is counted under exactly one key. So
    the counts listed in the top-5 section never add up to more than the
    number of fraudulent transactions that the report gives. *)
Theorem value_counts_add_up tx :
  (forall xs, list_sum (map snd (value_counts xs)) = List.length (present xs)) /\
  list_sum (map snd (top5 tx)) <= sum_bool (map is_fraud (rows tx)).
Proof.
  assert (forall xs, list_sum (map snd (value_counts xs)) = List.length (present xs)) as H.
  { intros xs. unfold value_counts. rewrite list_sum_sort_by, map_map. cbn [snd].
    apply count_uniques. }
  split; [exact H|]. unfold top5. rewrite <- firstn_map.
  eapply Nat.le_trans; [apply list_sum_firstn_le|]. rewrite H.
  eapply Nat.le_trans; [apply length_present_le|]. rewrite length_map.
  unfold sum_bool. rewrite length_filter_map. lia.
Qed.

(** ** The charts a run saves (lines 38-43, 86-111) *)




(** The five charts of a table that has all the requested columns. *)
Example all_five_charts :
  map path_str (saved_figures sample_world sample_prepared)
  = [ "/srv/eda/figures/fraud_rate_by_country.png";
      "/srv/eda/figures/amount_usd_hist.png";
      "/srv/eda/figures/fraud_rate_by_hour.png";
      "/srv/eda/figures/fraud_rate_high_risk_flag.png";
      "/srv/eda/figures/fraud_rate_by_vendor_type_top12.png" ].
Proof. reflexivity. Qed.

(** ** The shape of the long table (line 69) *)


